(** * Host code of ARTR 2024 Assignment 1 ([src/host_code/assignment1.cpp])

    A shallow embedding of the class [assignment1] (its [initialize], the GUI
    callback installed by [init_gui], [update] and [render]) and of [main],
    together with the properties of the per-frame update and submission
    protocol.

    The program is hosted by the Auto-Vk-Toolkit framework ([avk]), GLM and
    Dear ImGui.  What the host code only calls is kept abstract:
    - GLM's and the framework's numeric types and functions are the fields of
      the class [Externals];
    - the framework objects the host code drives (window, queue, command
      pool, composition) are the components of the record [world], and every
      framework call of the source is a small operation on it. *)

From Stdlib Require Import List Bool Arith ZArith Lia.
Import ListNotations.

Set Implicit Arguments.

(** ** Numeric types and functions of GLM and the framework *)

(** [avk::lightsource_type], the four categories the host code asks for. *)
Inductive lightsource_type : Type :=
| ambient
| directional
| point
| spot.

Class Externals : Type := {
  (** C++ [float], [glm::mat4], [glm::vec3], [glm::vec4] *)
  float : Type;
  mat4 : Type;
  vec3 : Type;
  vec4 : Type;
  (** a decimal literal [m * 10^e] rounded to [float], e.g. [-6.81f] *)
  float_lit : Z -> Z -> float;
  (** [a - b] on [float] *)
  fsub : float -> float -> float;
  (** [glm::radians] *)
  glm_radians : float -> float;
  (** [glm::vec3{x, y, z}] and [glm::vec4{s}] (all four components [s]) *)
  glm_vec3 : float -> float -> float -> vec3;
  glm_vec4_splat : float -> vec4;
  (** [glm::translate(v)] *)
  glm_translate : vec3 -> mat4;
  (** [glm::mat4{1.0f}] *)
  glm_identity : mat4;
  (** [avk::transform]: the matrix of a freshly constructed camera, and the
      effect of [set_translation] and [look_along] on a transform's matrix *)
  default_transform : mat4;
  transform_set_translation : vec3 -> mat4 -> mat4;
  transform_look_along : vec3 -> mat4 -> mat4;
  (** [avk::camera::view_matrix()] and [avk::transform::translation()], both
      determined by the transform's matrix *)
  view_matrix_of : mat4 -> mat4;
  translation_of : mat4 -> vec3;
  (** the perspective projection matrix for field of view, aspect ratio,
      near and far plane *)
  perspective : float -> float -> float -> float -> mat4;
  (** payload of an [avk::lightsource] besides its type (colour, position,
      direction, attenuation, ...) and the record the GPU receives *)
  light_payload : Type;
  lightsource_gpu_data : Type;
  (** one element of [avk::convert_for_gpu_usage] (positions and directions
      are transformed with the given matrix) and a value-initialised record *)
  light_for_gpu : mat4 -> lightsource_type -> light_payload -> lightsource_gpu_data;
  default_gpu_data : lightsource_gpu_data
}.

(** ** Light sources *)

(** The underlying enumeration value of a category. *)
Definition type_index (t : lightsource_type) : nat :=
  match t with
  | ambient => 0
  | directional => 1
  | point => 2
  | spot => 3
  end.

Definition all_lightsource_types : list lightsource_type :=
  [ambient; directional; point; spot].

(** [glm::uvec4]: four unsigned 32-bit components. *)
Record uvec4 : Type := mk_uvec4 { uv_x : Z; uv_y : Z; uv_z : Z; uv_w : Z }.

Definition UINT32_MODULUS : Z := 2 ^ 32.

(** Conversion of an index to an unsigned 32-bit component. *)
Definition to_uint32 (n : nat) : Z := Z.of_nat n mod UINT32_MODULUS.

(** [glm::uvec4{a, b, c, d}] *)
Definition glm_uvec4 (a b c d : nat) : uvec4 :=
  mk_uvec4 (to_uint32 a) (to_uint32 b) (to_uint32 c) (to_uint32 d).

Section Lights.

Context {E : Externals}.

(** [avk::lightsource]: the category and the remaining data. *)
Record lightsource : Type := mk_lightsource {
  mType : lightsource_type;
  mLight : light_payload
}.

(** Number of elements of [ls] that satisfy [p]. *)
Definition count_lights (p : lightsource -> bool) (ls : list lightsource) : nat :=
  length (filter p ls).

(** Number of lights of one category. *)
Definition count_of_type (t : lightsource_type) (ls : list lightsource) : nat :=
  count_lights (fun l => type_index (mType l) =? type_index t) ls.

(** Modelled from the spec: [helpers::get_lightsource_type_begin_index] of
    [utils/helper_functions.hpp], which is not among the sources.  The spec
    (data model, and scenario A of the testable properties) has the active
    lights grouped by category in the order ambient, directional, point,
    spot, each category owning a half-open index range: the range of a
    category begins after the lights of all earlier categories. *)
Definition get_lightsource_type_begin_index
    (aLightsources : list lightsource) (aType : lightsource_type) : nat :=
  count_lights (fun l => type_index (mType l) <? type_index aType) aLightsources.

(** Modelled from the spec: [helpers::get_lightsource_type_end_index] of
    [utils/helper_functions.hpp], which is not among the sources.  The range
    of a category ends after its own lights (scenario A: two ambient lights
    and one directional light give [0,2) and [2,3), the empty categories
    [3,3)). *)
Definition get_lightsource_type_end_index
    (aLightsources : list lightsource) (aType : lightsource_type) : nat :=
  count_lights (fun l => type_index (mType l) <=? type_index aType) aLightsources.

(** [struct lightsource_data] *)
Record lightsource_data : Type := mk_lightsource_data {
  mRangesAmbientDirectional : uvec4;
  mRangesPointSpot : uvec4;
  mLightData : list lightsource_gpu_data
}.

End Lights.

(** ** Constants and helpers of the repository that are not among the sources *)

Class Helpers {E : Externals} : Type := {
  (** [MAX_NUMBER_OF_LIGHTSOURCES] of [lightsource_limits.h]: the length of
      [lightsource_data::mLightData] *)
  MAX_NUMBER_OF_LIGHTSOURCES : nat;
  (** [helpers::animate_lights(lights, elapsedTime)] of
      [utils/helper_functions.hpp]: the collection it leaves behind *)
  animate_lights : list lightsource -> float -> list lightsource;
  (** [helpers::get_active_lightsources()]: the active ones of the
      collection of lights *)
  get_active_lightsources : list lightsource -> list lightsource
}.

Section LightsBlock.

Context {E : Externals} {H : Helpers}.

(** [avk::convert_for_gpu_usage<std::array<lightsource_gpu_data,
    MAX_NUMBER_OF_LIGHTSOURCES>>(lights, matrix)]: the lights converted one by
    one into an array of exactly [MAX_NUMBER_OF_LIGHTSOURCES] records; records
    past the last light stay value-initialised, lights that do not fit have no
    record. *)
Definition convert_for_gpu_usage
    (aLightsources : list lightsource) (aMatrix : mat4) : list lightsource_gpu_data :=
  let converted :=
    map (fun l => light_for_gpu aMatrix (mType l) (mLight l))
        (firstn MAX_NUMBER_OF_LIGHTSOURCES aLightsources) in
  converted ++ repeat default_gpu_data (MAX_NUMBER_OF_LIGHTSOURCES - length converted).

(** The initialiser of [lightsData] in [render]. *)
Definition make_lightsource_data
    (activeLights : list lightsource) (aViewMatrix : mat4) : lightsource_data :=
  mk_lightsource_data
    (glm_uvec4
       (get_lightsource_type_begin_index activeLights ambient)
       (get_lightsource_type_end_index activeLights ambient)
       (get_lightsource_type_begin_index activeLights directional)
       (get_lightsource_type_end_index activeLights directional))
    (glm_uvec4
       (get_lightsource_type_begin_index activeLights point)
       (get_lightsource_type_end_index activeLights point)
       (get_lightsource_type_begin_index activeLights spot)
       (get_lightsource_type_end_index activeLights spot))
    (convert_for_gpu_usage activeLights aViewMatrix).

(** The index range [(begin, end)] a block stores for a category, as the
    comments of [struct lightsource_data] lay the components out. *)
Definition range_of (d : lightsource_data) (t : lightsource_type) : Z * Z :=
  match t with
  | ambient => (uv_x (mRangesAmbientDirectional d), uv_y (mRangesAmbientDirectional d))
  | directional => (uv_z (mRangesAmbientDirectional d), uv_w (mRangesAmbientDirectional d))
  | point => (uv_x (mRangesPointSpot d), uv_y (mRangesPointSpot d))
  | spot => (uv_z (mRangesPointSpot d), uv_w (mRangesPointSpot d))
  end.


End LightsBlock.

(** ** Framework objects the host code drives *)

(** Pipeline stages named by the host code ([avk::stage]) together with the
    shader stages of [mPipeline]. *)
Inductive stage : Type :=
| stage_none
| stage_vertex_shader
| stage_early_fragment_tests
| stage_fragment_shader
| stage_late_fragment_tests
| stage_color_attachment_output
| stage_copy.

(** Position of a stage in the logical order of the graphics pipeline;
    [stage_copy] belongs to the transfer pipeline and [stage_none] to none. *)
Definition graphics_order (s : stage) : option nat :=
  match s with
  | stage_vertex_shader => Some 0
  | stage_early_fragment_tests => Some 1
  | stage_fragment_shader => Some 2
  | stage_late_fragment_tests => Some 3
  | stage_color_attachment_output => Some 4
  | stage_none | stage_copy => None
  end.

(** [a] is logically no later than [b] in the graphics pipeline. *)
Definition stage_leb (a b : stage) : bool :=
  match graphics_order a, graphics_order b with
  | Some i, Some j => i <=? j
  | _, _ => false
  end.

Definition stage_eqb (a b : stage) : bool :=
  match a, b with
  | stage_none, stage_none
  | stage_vertex_shader, stage_vertex_shader
  | stage_early_fragment_tests, stage_early_fragment_tests
  | stage_fragment_shader, stage_fragment_shader
  | stage_late_fragment_tests, stage_late_fragment_tests
  | stage_color_attachment_output, stage_color_attachment_output
  | stage_copy, stage_copy => true
  | _, _ => false
  end.

(** Semaphores: the one the window hands out for a frame's swap chain image,
    and those created by [record_and_submit_with_semaphore]. *)
Inductive semaphore : Type :=
| image_available_semaphore (frame : nat)
| created_semaphore (id : nat).

Definition semaphore_eqb (a b : semaphore) : bool :=
  match a, b with
  | image_available_semaphore i, image_available_semaphore j => i =? j
  | created_semaphore i, created_semaphore j => i =? j
  | _, _ => false
  end.

(** Resources bound through descriptors. *)
Inductive resource : Type :=
| res_materials
| res_image_samplers
| res_uniforms_buffer
| res_lights_buffer.

(** [descriptor_binding(set, binding, resource)] *)
Record descriptor_binding : Type := mk_descriptor_binding {
  db_set : nat;
  db_binding : nat;
  db_resource : resource
}.

(** A [subpass_dependency] of the renderpass: source and destination stages. *)
Record subpass_dependency : Type := mk_subpass_dependency {
  dep_src_stages : list stage;
  dep_dst_stages : list stage
}.

(** The two dependencies [init_pipelines] gives the renderpass:
    external >> subpass 0 and subpass 0 >> external. *)
Definition renderpass_dependencies : list subpass_dependency :=
  [ mk_subpass_dependency
      [stage_none]
      [stage_early_fragment_tests; stage_late_fragment_tests; stage_color_attachment_output];
    mk_subpass_dependency
      [stage_early_fragment_tests; stage_late_fragment_tests; stage_color_attachment_output]
      [stage_early_fragment_tests; stage_late_fragment_tests; stage_color_attachment_output] ].

(** The stages in which the subpass accesses its attachments (the depth
    buffer and the colour buffer of the target image): the destination of the
    dependency external >> subpass 0. *)
Definition attachment_stages : list stage :=
  match renderpass_dependencies with
  | d :: _ => dep_dst_stages d
  | [] => []
  end.

(** The descriptors [render] binds for [mPipeline]. *)
Definition render_descriptor_bindings : list descriptor_binding :=
  [ mk_descriptor_binding 0 0 res_materials;
    mk_descriptor_binding 0 1 res_image_samplers;
    mk_descriptor_binding 1 0 res_uniforms_buffer;
    mk_descriptor_binding 1 1 res_lights_buffer ].

Section Model.

Context {E : Externals} {H : Helpers}.

(** [struct matrices_and_user_input] *)
Record matrices_and_user_input : Type := mk_matrices_and_user_input {
  mViewMatrix : mat4;
  mProjMatrix : mat4;
  mCamPos : mat4;
  mUserInput : vec4
}.

(** [helpers::data_for_draw_call]: transform, material and buffer handles. *)
Record data_for_draw_call : Type := mk_data_for_draw_call {
  mModelMatrix : mat4;
  mMaterialIndex : Z;
  mIndexBuffer : nat;
  mPositionsBuffer : nat;
  mTexCoordsBuffer : nat;
  mNormalsBuffer : nat
}.

(** Commands recorded into a command buffer or submitted directly
    ([cmd_layout_transitions]: the layout transitions for all backbuffer
    images). *)
Inductive command : Type :=
| cmd_layout_transitions
| cmd_fill_lights_buffer (data : lightsource_data)
| cmd_begin_render_pass (backbuffer_of_frame : nat)
| cmd_bind_pipeline
| cmd_bind_descriptors (bindings : list descriptor_binding)
| cmd_push_constants (aModelMatrix : mat4) (aMaterialIndex : Z)
| cmd_draw_indexed (aIndexBuffer aPositions aTexCoords aNormals : nat)
| cmd_end_render_pass.

(** A batch of work handed to the queue: its commands, the command buffer
    holding them (if one was allocated by the host code), the semaphores it
    waits for with the stage that waits, and the semaphores it signals with
    the stage after which it does. *)
Record submission : Type := mk_submission {
  sub_commands : list command;
  sub_command_buffer : option nat;
  sub_waits : list (semaphore * stage);
  sub_signals : list (semaphore * stage)
}.

(** [avk::orbit_camera] and [avk::quake_camera], as far as the host code uses
    them: the [invokee]'s enabled flag, the transform's matrix and the
    parameters of the perspective projection (field of view, aspect ratio,
    near plane, far plane) once set. *)
Record camera : Type := mk_camera {
  cam_enabled : bool;
  cam_matrix : mat4;
  cam_perspective : option (float * float * float * float)
}.

Definition is_enabled (c : camera) : bool := cam_enabled c.
Definition enable (c : camera) : camera :=
  mk_camera true (cam_matrix c) (cam_perspective c).
Definition disable (c : camera) : camera :=
  mk_camera false (cam_matrix c) (cam_perspective c).
Definition matrix (c : camera) : mat4 := cam_matrix c.
Definition set_matrix (m : mat4) (c : camera) : camera :=
  mk_camera (cam_enabled c) m (cam_perspective c).
Definition set_translation (v : vec3) (c : camera) : camera :=
  set_matrix (transform_set_translation v (cam_matrix c)) c.
Definition look_along (v : vec3) (c : camera) : camera :=
  set_matrix (transform_look_along v (cam_matrix c)) c.
Definition set_perspective_projection (fov aspect near far : float) (c : camera) : camera :=
  mk_camera (cam_enabled c) (cam_matrix c) (Some (fov, aspect, near, far)).
Definition set_aspect_ratio (aspect : float) (c : camera) : camera :=
  match cam_perspective c with
  | Some (fov, _, near, far) =>
      mk_camera (cam_enabled c) (cam_matrix c) (Some (fov, aspect, near, far))
  | None => c
  end.
Definition view_matrix (c : camera) : mat4 := view_matrix_of (cam_matrix c).
Definition translation (c : camera) : vec3 := translation_of (cam_matrix c).
Definition projection_matrix (c : camera) : mat4 :=
  match cam_perspective c with
  | Some (fov, aspect, near, far) => perspective fov aspect near far
  | None => glm_identity
  end.

(** A freshly constructed camera: an enabled invokee with the default
    transform and no projection set. *)
Definition new_camera : camera := mk_camera true default_transform None.

(** The members of [assignment1] that change after construction, the static
    local [startTime] of [render], the framework objects the callbacks act
    on (the composition, the main window and the queue, as far as the host
    code itself drives them: what other invokees submit or register is not
    recorded), and the collection of light sources the helpers keep. *)
Record world : Type := mk_world {
  mDrawCalls : list data_for_draw_call;
  mOrbitCam : camera;
  mQuakeCam : camera;
  (** contents of the host-visible memory of [mUniformsBuffer] *)
  mUniformsBuffer : option matrices_and_user_input;
  mNormalMappingStrength : float;
  (** [static auto startTime] of [render]: unset until first reached *)
  startTime : option float;
  (** whether [init_gui] installed its callback *)
  gui_callback_installed : bool;
  (** composition: [stop()] was called *)
  composition_stopped : bool;
  (** main window: number of the current frame, whether its image-available
      semaphore was consumed, the present dependencies [assignment1] added
      for the current frame and the command buffers it handed over for
      lifetime handling *)
  wnd_current_frame : nat;
  wnd_image_available_consumed : bool;
  wnd_present_dependencies : list semaphore;
  wnd_lifetime_handled : list nat;
  (** queue and command pool: the submissions [assignment1] made to
      [*mQueue], in order, and the next fresh semaphore and command buffer *)
  queue_submissions : list submission;
  next_semaphore : nat;
  next_command_buffer : nat;
  (** the collection of light sources [helpers::get_lights()] refers to *)
  helpers_lights : list lightsource
}.

Definition with_cameras (orbit quake : camera) (w : world) : world :=
  mk_world (mDrawCalls w) orbit quake (mUniformsBuffer w)
    (mNormalMappingStrength w) (startTime w) (gui_callback_installed w)
    (composition_stopped w) (wnd_current_frame w) (wnd_image_available_consumed w)
    (wnd_present_dependencies w) (wnd_lifetime_handled w) (queue_submissions w)
    (next_semaphore w) (next_command_buffer w) (helpers_lights w).

Definition with_orbit_cam (c : camera) (w : world) : world :=
  with_cameras c (mQuakeCam w) w.

Definition with_quake_cam (c : camera) (w : world) : world :=
  with_cameras (mOrbitCam w) c w.

Definition with_uniforms_buffer (u : option matrices_and_user_input) (w : world) : world :=
  mk_world (mDrawCalls w) (mOrbitCam w) (mQuakeCam w) u
    (mNormalMappingStrength w) (startTime w) (gui_callback_installed w)
    (composition_stopped w) (wnd_current_frame w) (wnd_image_available_consumed w)
    (wnd_present_dependencies w) (wnd_lifetime_handled w) (queue_submissions w)
    (next_semaphore w) (next_command_buffer w) (helpers_lights w).

Definition with_normal_mapping_strength (f : float) (w : world) : world :=
  mk_world (mDrawCalls w) (mOrbitCam w) (mQuakeCam w) (mUniformsBuffer w)
    f (startTime w) (gui_callback_installed w)
    (composition_stopped w) (wnd_current_frame w) (wnd_image_available_consumed w)
    (wnd_present_dependencies w) (wnd_lifetime_handled w) (queue_submissions w)
    (next_semaphore w) (next_command_buffer w) (helpers_lights w).

Definition with_start_time (t : option float) (w : world) : world :=
  mk_world (mDrawCalls w) (mOrbitCam w) (mQuakeCam w) (mUniformsBuffer w)
    (mNormalMappingStrength w) t (gui_callback_installed w)
    (composition_stopped w) (wnd_current_frame w) (wnd_image_available_consumed w)
    (wnd_present_dependencies w) (wnd_lifetime_handled w) (queue_submissions w)
    (next_semaphore w) (next_command_buffer w) (helpers_lights w).

Definition with_gui_callback_installed (b : bool) (w : world) : world :=
  mk_world (mDrawCalls w) (mOrbitCam w) (mQuakeCam w) (mUniformsBuffer w)
    (mNormalMappingStrength w) (startTime w) b
    (composition_stopped w) (wnd_current_frame w) (wnd_image_available_consumed w)
    (wnd_present_dependencies w) (wnd_lifetime_handled w) (queue_submissions w)
    (next_semaphore w) (next_command_buffer w) (helpers_lights w).

Definition with_composition_stopped (b : bool) (w : world) : world :=
  mk_world (mDrawCalls w) (mOrbitCam w) (mQuakeCam w) (mUniformsBuffer w)
    (mNormalMappingStrength w) (startTime w) (gui_callback_installed w)
    b (wnd_current_frame w) (wnd_image_available_consumed w)
    (wnd_present_dependencies w) (wnd_lifetime_handled w) (queue_submissions w)
    (next_semaphore w) (next_command_buffer w) (helpers_lights w).

Definition with_window
    (frame : nat) (consumed : bool) (deps : list semaphore) (handled : list nat)
    (w : world) : world :=
  mk_world (mDrawCalls w) (mOrbitCam w) (mQuakeCam w) (mUniformsBuffer w)
    (mNormalMappingStrength w) (startTime w) (gui_callback_installed w)
    (composition_stopped w) frame consumed deps handled (queue_submissions w)
    (next_semaphore w) (next_command_buffer w) (helpers_lights w).

Definition with_queue
    (subs : list submission) (sem cb : nat) (w : world) : world :=
  mk_world (mDrawCalls w) (mOrbitCam w) (mQuakeCam w) (mUniformsBuffer w)
    (mNormalMappingStrength w) (startTime w) (gui_callback_installed w)
    (composition_stopped w) (wnd_current_frame w) (wnd_image_available_consumed w)
    (wnd_present_dependencies w) (wnd_lifetime_handled w) subs sem cb
    (helpers_lights w).

Definition with_lights (ls : list lightsource) (w : world) : world :=
  mk_world (mDrawCalls w) (mOrbitCam w) (mQuakeCam w) (mUniformsBuffer w)
    (mNormalMappingStrength w) (startTime w) (gui_callback_installed w)
    (composition_stopped w) (wnd_current_frame w) (wnd_image_available_consumed w)
    (wnd_present_dependencies w) (wnd_lifetime_handled w) (queue_submissions w)
    (next_semaphore w) (next_command_buffer w) ls.

(** *** The state monad of the callbacks *)

Definition M (A : Type) : Type := world -> A * world.

Definition ret {A : Type} (a : A) : M A := fun w => (a, w).

Definition bind {A B : Type} (c : M A) (k : A -> M B) : M B :=
  fun w => let (a, w') := c w in k a w'.

Definition gets {A : Type} (f : world -> A) : M A := fun w => (f w, w).

Definition modify (f : world -> world) : M unit := fun w => (tt, f w).

(** The world a computation leaves behind. *)
Definition exec {A : Type} (c : M A) (w : world) : world := snd (c w).

(** [when b c]: [if (b) { c }] *)
Definition when (b : bool) (c : M unit) : M unit := if b then c else ret tt.

Notation "x <- c ;; k" := (bind c (fun x => k))
  (at level 61, c at next level, right associativity).
Notation "c ;; k" := (bind c (fun _ => k))
  (at level 61, right associativity).

(** *** What one frame reads from its environment *)

Record frame_input : Type := mk_frame_input {
  (** [avk::input().key_pressed(avk::key_code::escape)] *)
  in_escape_pressed : bool;
  (** [main_window()->should_be_closed()] *)
  in_should_be_closed : bool;
  (** [ImGui::Checkbox("Enable Quake Camera", ...)] returned [true]: the box
      was clicked and its value flipped *)
  in_quake_checkbox_clicked : bool;
  (** [imguiManager->begin_wanting_to_occupy_mouse()] and
      [imguiManager->end_wanting_to_occupy_mouse()] *)
  in_begin_wanting_to_occupy_mouse : bool;
  in_end_wanting_to_occupy_mouse : bool;
  (** the value [ImGui::SliderFloat] stores, when the slider was moved *)
  in_normal_mapping_slider : option float;
  (** [context().get_time()] as read by the initialiser of the static
      [startTime] (when it runs) and as read for the animation *)
  in_time_at_static_init : float;
  in_time : float;
  (** the matrix the [update] callback of the orbit camera and of the quake
      camera leaves in this frame, when the camera is invoked and the user
      moves it *)
  in_orbit_cam_update : option mat4;
  in_quake_cam_update : option mat4
}.

(** *** Window, queue and command pool *)

(** [main_window()->consume_current_image_available_semaphore()] *)
Definition consume_current_image_available_semaphore : M semaphore :=
  fun w =>
    (image_available_semaphore (wnd_current_frame w),
     with_window (wnd_current_frame w) true
       (wnd_present_dependencies w) (wnd_lifetime_handled w) w).

(** [main_window()->add_present_dependency_for_current_frame(sem)] *)
Definition add_present_dependency_for_current_frame (sem : semaphore) : M unit :=
  modify (fun w =>
    with_window (wnd_current_frame w) (wnd_image_available_consumed w)
      (wnd_present_dependencies w ++ [sem]) (wnd_lifetime_handled w) w).

(** [main_window()->handle_lifetime(cmdBfr)] *)
Definition handle_lifetime (cb : nat) : M unit :=
  modify (fun w =>
    with_window (wnd_current_frame w) (wnd_image_available_consumed w)
      (wnd_present_dependencies w) (wnd_lifetime_handled w ++ [cb]) w).

(** [context().record_and_submit_with_semaphore(commands, queue, stage)]:
    the commands are submitted at once; the new semaphore is signalled after
    the given stage of this submission and returned. *)
Definition record_and_submit_with_semaphore
    (commands : list command) (signal_after : stage) : M semaphore :=
  fun w =>
    let sem := created_semaphore (next_semaphore w) in
    (sem,
     with_queue
       (queue_submissions w ++ [mk_submission commands None [] [(sem, signal_after)]])
       (S (next_semaphore w)) (next_command_buffer w) w).

(** [mCommandPool->alloc_command_buffer(eOneTimeSubmit)] *)
Definition alloc_command_buffer : M nat :=
  fun w =>
    (next_command_buffer w,
     with_queue (queue_submissions w) (next_semaphore w) (S (next_command_buffer w)) w).

(** [context().record(commands).into_command_buffer(cb).then_submit_to(queue)
    .waiting_for(waits...).submit()]: no semaphore is signalled. *)
Definition record_into_command_buffer_and_submit
    (commands : list command) (cb : nat) (waits : list (semaphore * stage)) : M unit :=
  modify (fun w =>
    with_queue
      (queue_submissions w ++ [mk_submission commands (Some cb) waits []])
      (next_semaphore w) (next_command_buffer w) w).

(** [mUniformsBuffer->fill(&uni, 0)]: the buffer is host visible and has the
    size of [uni], so the write replaces its whole contents at once. *)
Definition fill_uniforms_buffer (uni : matrices_and_user_input) : M unit :=
  modify (with_uniforms_buffer (Some uni)).

(** [static auto startTime = static_cast<float>(context().get_time());]:
    initialised the first time control passes, kept afterwards. *)
Definition static_start_time (inp : frame_input) : M float :=
  fun w =>
    match startTime w with
    | Some t => (t, w)
    | None => (in_time_at_static_init inp,
               with_start_time (Some (in_time_at_static_init inp)) w)
    end.

(** *** [assignment1::initialize] (with [init_gui]) *)

(** The camera set-up of [initialize]; both cameras receive the same
    translation, direction and projection, then the quake camera is
    disabled. *)
Definition initial_translation : vec3 :=
  glm_vec3 (float_lit (-681) (-2)) (float_lit 171 (-2)) (float_lit (-72) (-2)).

Definition initial_direction : vec3 :=
  glm_vec3 (float_lit 10 (-1)) (float_lit 0 (-1)) (float_lit 0 (-1)).

Definition init_camera (aspect_ratio : float) (c : camera) : camera :=
  set_perspective_projection
    (glm_radians (float_lit 600 (-1))) aspect_ratio
    (float_lit 3 (-1)) (float_lit 10000 (-1))
    (look_along initial_direction (set_translation initial_translation c)).

(** The submission of [init_pipelines]: the layout transitions of the
    backbuffer images, submitted with a fence the host waits for; it waits
    for no semaphore and signals none. *)
Definition layout_transitions_submission : submission :=
  mk_submission [cmd_layout_transitions] None [] [].

(** [initialize]: [aDrawCalls] is what the scene loader returns, [aLights]
    the collection of light sources the helpers hold, [aspect_ratio] the
    main window's aspect ratio and [has_imgui_manager] whether the
    composition contains an [avk::imgui_manager] (then [init_gui] installs
    its callback, otherwise it only logs an error).  The buffers are created
    without contents, [mNormalMappingStrength] has its default member
    initialiser [0.5f], and [init_pipelines] has made its submission to the
    queue (what the scene loader submits to the queue it is given is not
    recorded). *)
Definition initialize
    (aDrawCalls : list data_for_draw_call) (aLights : list lightsource)
    (aspect_ratio : float) (has_imgui_manager : bool) : world :=
  mk_world aDrawCalls
    (init_camera aspect_ratio new_camera)
    (disable (init_camera aspect_ratio new_camera))
    None (float_lit 5 (-1)) None has_imgui_manager
    false 0 false [] [] [layout_transitions_submission] 0 0 aLights.

(** The handler [enable_the_updater] installs for a changed swap chain. *)
Definition on_swapchain_changed (aspect_ratio : float) : M unit :=
  modify (fun w =>
    with_cameras (set_aspect_ratio aspect_ratio (mOrbitCam w))
                 (set_aspect_ratio aspect_ratio (mQuakeCam w)) w).

(** *** The callback installed by [init_gui] *)

(** The camera and settings part of the callback.  The frame-rate plot, the
    gizmo and editor check boxes and the camera presets act on the GUI and on
    other invokees only. *)
Definition gui_callback (inp : frame_input) : M unit :=
  quakeCamWasEnabled <- gets (fun w => is_enabled (mQuakeCam w)) ;;
  (* ImGui::Checkbox flips the local flag when clicked *)
  let quakeCamEnabled :=
    if in_quake_checkbox_clicked inp then negb quakeCamWasEnabled
    else quakeCamWasEnabled in
  when (in_quake_checkbox_clicked inp)
    (when quakeCamEnabled
       (modify (fun w => with_quake_cam (enable (mQuakeCam w)) w) ;;
        modify (fun w => with_orbit_cam (disable (mOrbitCam w)) w))) ;;
  when quakeCamEnabled
    (when (in_escape_pressed inp)
       (modify (fun w => with_orbit_cam (enable (mOrbitCam w)) w) ;;
        modify (fun w => with_quake_cam (disable (mQuakeCam w)) w))) ;;
  orbitEnabled <- gets (fun w => is_enabled (mOrbitCam w)) ;;
  when (in_begin_wanting_to_occupy_mouse inp && orbitEnabled)
    (modify (fun w => with_orbit_cam (disable (mOrbitCam w)) w)) ;;
  quakeEnabled <- gets (fun w => is_enabled (mQuakeCam w)) ;;
  when (in_end_wanting_to_occupy_mouse inp && negb quakeEnabled)
    (modify (fun w => with_orbit_cam (enable (mOrbitCam w)) w)) ;;
  match in_normal_mapping_slider inp with
  | Some f => modify (with_normal_mapping_strength f)
  | None => ret tt
  end.

(** *** [assignment1::update] *)

Definition update (inp : frame_input) : M unit :=
  quakeEnabled <- gets (fun w => is_enabled (mQuakeCam w)) ;;
  when quakeEnabled
    (modify (fun w => with_orbit_cam (set_matrix (matrix (mQuakeCam w)) (mOrbitCam w)) w)) ;;
  orbitEnabled <- gets (fun w => is_enabled (mOrbitCam w)) ;;
  when orbitEnabled
    (modify (fun w => with_quake_cam (set_matrix (matrix (mOrbitCam w)) (mQuakeCam w)) w)) ;;
  quakeEnabled' <- gets (fun w => is_enabled (mQuakeCam w)) ;;
  when ((negb quakeEnabled' && in_escape_pressed inp) || in_should_be_closed inp)
    (modify (with_composition_stopped true)).

(** *** [assignment1::render] *)

(** [helpers::animate_lights(helpers::get_lights(), elapsed)]: the collection
    is animated in place. *)
Definition animate_lights_in_place (elapsed : float) : M unit :=
  modify (fun w => with_lights (animate_lights (helpers_lights w) elapsed) w).

(** The uniform data [render] assembles from the quake camera. *)
Definition uniforms_of (quake : camera) (strength : float) : matrices_and_user_input :=
  mk_matrices_and_user_input
    (view_matrix quake)
    (projection_matrix quake)
    (glm_translate (translation quake))
    (glm_vec4_splat strength).

(** The commands recorded for the draw calls of the scene. *)
Definition draw_commands (frame : nat) (calls : list data_for_draw_call) : list command :=
  [cmd_begin_render_pass frame; cmd_bind_pipeline;
   cmd_bind_descriptors render_descriptor_bindings]
  ++ flat_map (fun drawCall =>
       [cmd_push_constants (mModelMatrix drawCall) (mMaterialIndex drawCall);
        cmd_draw_indexed (mIndexBuffer drawCall) (mPositionsBuffer drawCall)
          (mTexCoordsBuffer drawCall) (mNormalsBuffer drawCall)]) calls
  ++ [cmd_end_render_pass].

Definition render (inp : frame_input) : M unit :=
  imageAvailableSemaphore <- consume_current_image_available_semaphore ;;
  (* Update the data in our uniform buffers: *)
  quake <- gets mQuakeCam ;;
  strength <- gets mNormalMappingStrength ;;
  fill_uniforms_buffer (uniforms_of quake strength) ;;
  (* Animate lights: *)
  start <- static_start_time inp ;;
  animate_lights_in_place (fsub (in_time inp) start) ;;
  (* Update the data in our light sources buffer: *)
  lights <- gets helpers_lights ;;
  let activeLights := get_active_lightsources lights in
  let lightsData := make_lightsource_data activeLights (view_matrix quake) in
  lightsSemaphore <-
    record_and_submit_with_semaphore [cmd_fill_lights_buffer lightsData] stage_copy ;;
  add_present_dependency_for_current_frame lightsSemaphore ;;
  cmdBfr <- alloc_command_buffer ;;
  frame <- gets wnd_current_frame ;;
  calls <- gets mDrawCalls ;;
  record_into_command_buffer_and_submit
    (draw_commands frame calls) cmdBfr
    [(imageAvailableSemaphore, stage_early_fragment_tests)] ;;
  handle_lifetime cmdBfr.

(** *** One iteration of the render loop of [main] *)

(** [wnd->render_frame()]: the image is handed to the presentation engine
    with the present dependencies of the frame, and the window moves on to
    the next frame. *)
Definition render_frame : M unit :=
  modify (fun w =>
    with_window (S (wnd_current_frame w)) false [] (wnd_lifetime_handled w) w).

(** The [update] callbacks of the two cameras, which [initialize] adds to
    the composition after [assignment1]: an enabled camera follows the user's
    input, a disabled invokee is not invoked. *)
Definition move_if_enabled (m : mat4) (c : camera) : camera :=
  if is_enabled c then set_matrix m c else c.

Definition camera_update (moved_to : option mat4) (c : camera) : camera :=
  match moved_to with
  | Some m => move_if_enabled m c
  | None => c
  end.

Definition cameras_update (inp : frame_input) : M unit :=
  modify (fun w =>
    with_cameras (camera_update (in_orbit_cam_update inp) (mOrbitCam w))
                 (camera_update (in_quake_cam_update inp) (mQuakeCam w)) w).

(** The callbacks of one frame in the order the loop invokes them: all
    [update] callbacks ([assignment1] first, then the cameras it added), then
    the [render] callbacks of [assignment1] and of the [imgui_manager]
    (which runs the GUI callback; [main] passes them to the composition in
    this order), then the window's [render_frame].  What the [imgui_manager]
    itself submits and registers for the present operation is not part of the
    world. *)
Definition frame (inp : frame_input) : M unit :=
  update inp ;;
  cameras_update inp ;;
  render inp ;;
  installed <- gets gui_callback_installed ;;
  when installed (gui_callback inp) ;;
  render_frame.

(** What happens to the world between the start of the render loop and its
    end: frames, changes of the swap chain, movements of an enabled camera
    between two frames, and changes the light source editor makes to the
    collection of lights. *)
Inductive event : Type :=
| ev_frame (inp : frame_input)
| ev_swapchain_changed (aspect_ratio : float)
| ev_camera_input (orbit_matrix quake_matrix : mat4)
| ev_lights_edited (lights : list lightsource).

(** Once the composition is stopped the loop ends and nothing more happens. *)
Definition apply_event (w : world) (ev : event) : world :=
  if composition_stopped w then w
  else match ev with
       | ev_frame inp => exec (frame inp) w
       | ev_swapchain_changed aspect_ratio => exec (on_swapchain_changed aspect_ratio) w
       | ev_camera_input mo mq =>
           with_cameras (move_if_enabled mo (mOrbitCam w))
                        (move_if_enabled mq (mQuakeCam w)) w
       | ev_lights_edited ls => with_lights ls w
       end.

Definition run_events (w : world) (evs : list event) : world :=
  fold_left apply_event evs w.

(** The world when the render loop of [main] starts (the composition of
    [main] contains an [imgui_manager]), and the worlds it can reach. *)
Definition initial_world
    (aDrawCalls : list data_for_draw_call) (aLights : list lightsource)
    (aspect_ratio : float) : world :=
  initialize aDrawCalls aLights aspect_ratio true.

Definition world_after
    (aDrawCalls : list data_for_draw_call) (aLights : list lightsource)
    (aspect_ratio : float) (evs : list event) : world :=
  run_events (initial_world aDrawCalls aLights aspect_ratio) evs.

(** *** Observations on the queue *)

(** The submissions a computation adds to the queue. *)
Definition submitted_by {A : Type} (c : M A) (w : world) : list submission :=
  skipn (length (queue_submissions w)) (queue_submissions (exec c w)).

(** The present dependencies a computation adds for the current frame. *)
Definition present_dependencies_added_by {A : Type} (c : M A) (w : world) : list semaphore :=
  skipn (length (wnd_present_dependencies w)) (wnd_present_dependencies (exec c w)).

(** A stage of a submission waits for a semaphore when the submission lists
    the semaphore with a wait stage that is logically no later. *)
Definition stage_waits_for (sub : submission) (st : stage) (sem : semaphore) : bool :=
  existsb (fun ws => semaphore_eqb (fst ws) sem && stage_leb (snd ws) st) (sub_waits sub).

(** The submission signals the semaphore on completion. *)
Definition signals (sub : submission) (sem : semaphore) : bool :=
  existsb (fun ss => semaphore_eqb (fst ss) sem) (sub_signals sub).

(** The submission binds the resource for its draw calls. *)
Definition binds_resource (sub : submission) (r : resource) : bool :=
  existsb (fun c =>
    match c with
    | cmd_bind_descriptors bs =>
        existsb (fun b =>
          match db_resource b, r with
          | res_materials, res_materials
          | res_image_samplers, res_image_samplers
          | res_uniforms_buffer, res_uniforms_buffer
          | res_lights_buffer, res_lights_buffer => true
          | _, _ => false
          end) bs
    | _ => false
    end) (sub_commands sub).

(** The submission records draw commands into a render pass. *)
Definition is_draw_submission (sub : submission) : bool :=
  existsb (fun c => match c with cmd_begin_render_pass _ => true | _ => false end)
          (sub_commands sub).

(** The completion of the submission is a present dependency of the current
    frame: one of the frame's present dependencies is a semaphore the
    submission signals. *)
Definition completion_is_present_dependency (sub : submission) (w : world) : bool :=
  existsb (signals sub) (wnd_present_dependencies w).

(** The data the last transfer found among the commands writes, if any. *)
Fixpoint last_lights_fill (cs : list command) (acc : option lightsource_data)
    : option lightsource_data :=
  match cs with
  | [] => acc
  | cmd_fill_lights_buffer d :: cs' => last_lights_fill cs' (Some d)
  | _ :: cs' => last_lights_fill cs' acc
  end.

(** Contents of the device memory of [mLightsBuffer] once the queue has
    executed everything submitted so far. *)
Definition lights_buffer_contents (w : world) : option lightsource_data :=
  fold_left (fun acc sub => last_lights_fill (sub_commands sub) acc)
            (queue_submissions w) None.

(** *** Invariants of the render loop *)

(** At most one camera is enabled and both have the same projection set. *)
Definition cameras_in_step (w : world) : Prop :=
  is_enabled (mOrbitCam w) && is_enabled (mQuakeCam w) = false
  /\ cam_perspective (mOrbitCam w) = cam_perspective (mQuakeCam w).

(** Whether the GUI occupies the mouse after an event, given whether it did
    before: a frame whose GUI pass reports the end of occupying the mouse
    ends it, a frame whose pass reports only the begin starts it; frames of
    a stopped composition or without GUI callback, and other events, change
    nothing. *)
Definition occupies_mouse_after_event (w : world) (occupied : bool) (ev : event) : bool :=
  if composition_stopped w then occupied
  else match ev with
       | ev_frame inp =>
           if gui_callback_installed w then
             if in_end_wanting_to_occupy_mouse inp then false
             else if in_begin_wanting_to_occupy_mouse inp then true
             else occupied
           else occupied
       | _ => occupied
       end.

(** Whether the GUI occupies the mouse after a run of events. *)
Fixpoint occupies_mouse_after (w : world) (occupied : bool) (evs : list event) : bool :=
  match evs with
  | [] => occupied
  | ev :: rest =>
      occupies_mouse_after (apply_event w ev) (occupies_mouse_after_event w occupied ev) rest
  end.

(** Whether the GUI occupies the mouse in [world_after]. *)
Definition gui_occupies_mouse
    (aDrawCalls : list data_for_draw_call) (aLights : list lightsource)
    (aspect_ratio : float) (evs : list event) : bool :=
  occupies_mouse_after (initial_world aDrawCalls aLights aspect_ratio) false evs.


End Model.

(** ** [main] *)

(** What [main] asks of the main window before opening it. *)
Inductive presentation_mode : Type :=
| immediate
| relaxed_fifo
| fifo
| mailbox.

Record window_config : Type := mk_window_config {
  cfg_resolution : nat * nat;
  cfg_resizing : bool;
  cfg_srgb_framebuffer : bool;
  cfg_presentation_mode : presentation_mode;
  cfg_number_of_concurrent_frames : nat;
  cfg_number_of_presentable_images : nat
}.

Definition main_window_config : window_config :=
  mk_window_config (1920, 1080) true true mailbox 3 5.

(** Exceptions that can leave a framework call: the two classes [main]
    catches, and anything else. *)
Inductive exception : Type :=
| avk_logic_error
| avk_runtime_error
| other_exception.

Inductive exit_code : Type :=
| EXIT_SUCCESS
| EXIT_FAILURE.

(** How the process ends: [main] returns an exit code, or an exception
    leaves [main]. *)
Inductive termination : Type :=
| returns (code : exit_code)
| uncaught (e : exception).

(** The statements of the [try] block, in order. *)
Inductive main_step : Type :=
| step_create_window
| step_set_resolution
| step_set_additional_back_buffer_attachments
| step_enable_resizing
| step_request_srgb_framebuffer
| step_set_presentaton_mode
| step_set_number_of_concurrent_frames
| step_set_number_of_presentable_images
| step_open
| step_create_queue
| step_set_queue_family_ownership
| step_set_present_queue
| step_construct_assignment1
| step_construct_imgui_manager
| step_set_custom_font
| step_create_lightsource_editor
| step_create_camera_presets
| step_configure_and_compose
| step_start_render_loop.

Definition try_block_steps : list main_step :=
  [ step_create_window; step_set_resolution;
    step_set_additional_back_buffer_attachments; step_enable_resizing;
    step_request_srgb_framebuffer; step_set_presentaton_mode;
    step_set_number_of_concurrent_frames; step_set_number_of_presentable_images;
    step_open; step_create_queue; step_set_queue_family_ownership;
    step_set_present_queue; step_construct_assignment1;
    step_construct_imgui_manager; step_set_custom_font;
    step_create_lightsource_editor; step_create_camera_presets;
    step_configure_and_compose; step_start_render_loop ].

Section Main.

(** The run at hand: for every statement of the [try] block, the exception
    it throws, if it throws. *)
Variable throws : main_step -> option exception.

(** The local variable [result] and the statements executed so far. *)
Record main_state : Type := mk_main_state {
  result : exit_code;
  executed : list main_step
}.

(** Executes the statements in order until one throws. *)
Fixpoint run_steps (steps : list main_step) (st : main_state)
    : main_state * option exception :=
  match steps with
  | [] => (st, None)
  | s :: rest =>
      let st' := mk_main_state (result st) (executed st ++ [s]) in
      match throws s with
      | Some e => (st', Some e)
      | None => run_steps rest st'
      end
  end.

(** [main]: [result] starts as [EXIT_FAILURE] and becomes [EXIT_SUCCESS]
    after the last statement of the [try] block; the two handlers are empty,
    so a caught exception leads straight to [return result]. *)
Definition main : termination * list main_step :=
  let st0 := mk_main_state EXIT_FAILURE [] in
  match run_steps try_block_steps st0 with
  | (st, None) =>
      let st' := mk_main_state EXIT_SUCCESS (executed st) in
      (returns (result st'), executed st')
  | (st, Some avk_logic_error) => (returns (result st), executed st)
  | (st, Some avk_runtime_error) => (returns (result st), executed st)
  | (st, Some other_exception) => (uncaught other_exception, executed st)
  end.

End Main.

(** ** The frame-rate history of the GUI callback *)

Section FrameRateHistory.

Context {E : Externals}.

(** [a + b] and [a / b] on [float] *)
Variable fadd : float -> float -> float.
Variable fdiv : float -> float -> float.

(** The two static vectors of the callback: [accum] collects the frame rates
    of the current block of ten frames, [values] the averages plotted. *)
Record fps_history : Type := mk_fps_history {
  accum : list float;
  values : list float
}.

(** Both vectors start out empty. *)
Definition no_fps_history : fps_history := mk_fps_history [] [].

(** [std::accumulate(std::begin(v), std::end(v), init)] *)
Definition accumulate (v : list float) (init : float) : float :=
  fold_left fadd v init.

(** The average the callback pushes for a block:
    [std::accumulate(..., 0.0f) / 10.0f]. *)
Definition block_average (block : list float) : float :=
  fdiv (accumulate block (float_lit 0 (-1))) (float_lit 100 (-1)).

(** The part of the callback between [ImGui::Text] and [ImGui::PlotLines],
    for the frame rate [ImGui::GetIO().Framerate] of this pass; [values] of
    the result is what is plotted. *)
Definition record_framerate (framerate : float) (h : fps_history) : fps_history :=
  (* accum.push_back(ImGui::GetIO().Framerate); *)
  let accum1 := accum h ++ [framerate] in
  (* if (accum.size() == 10) { values.push_back(...); accum.clear(); } *)
  let values1 :=
    if length accum1 =? 10 then values h ++ [block_average accum1] else values h in
  let accum2 := if length accum1 =? 10 then [] else accum1 in
  (* if (values.size() > 90) { values.erase(values.begin()); } *)
  let values2 := if 90 <? length values1 then tl values1 else values1 in
  mk_fps_history accum2 values2.

(** The statics after the callback ran once for each of the frame rates. *)
Definition fps_history_after (framerates : list float) : fps_history :=
  fold_left (fun h f => record_framerate f h) framerates no_fps_history.

(** The [k] last elements of a list (all of it when it is shorter). *)
Definition keep_last {A : Type} (k : nat) (l : list A) : list A :=
  skipn (length l - k) l.

(** The [j]-th complete block of ten of a series. *)
Definition block_of_ten {A : Type} (l : list A) (j : nat) : list A :=
  firstn 10 (skipn (10 * j) l).

End FrameRateHistory.

(** ** Reading the recorded commands back *)

Section RecordedCommands.

Context {E : Externals}.

(** The draw calls a command sequence performs: every [push_constants]
    followed at once by a [draw_indexed]. *)
Fixpoint recorded_draw_calls (cs : list command) : list data_for_draw_call :=
  match cs with
  | [] => []
  | cmd_push_constants m i :: rest =>
      match rest with
      | cmd_draw_indexed ib pb tb nb :: rest' =>
          mk_data_for_draw_call m i ib pb tb nb :: recorded_draw_calls rest'
      | _ => recorded_draw_calls rest
      end
  | _ :: rest => recorded_draw_calls rest
  end.

(** Number of commands of a sequence that satisfy [p]. *)
Definition count_commands (p : command -> bool) (cs : list command) : nat :=
  length (filter p cs).

Definition is_begin_render_pass (c : command) : bool :=
  match c with cmd_begin_render_pass _ => true | _ => false end.

Definition is_end_render_pass (c : command) : bool :=
  match c with cmd_end_render_pass => true | _ => false end.

Definition is_state_binding (c : command) : bool :=
  match c with cmd_bind_pipeline | cmd_bind_descriptors _ => true | _ => false end.

(** The submissions the host code itself has made sit in the queue in the
    order it made them: the layout transitions of [init_pipelines], then two
    per frame; and the counters of the window, the queue and the command pool
    all stand at the number of the current frame. *)
Definition own_submissions_in_frame_order (w : world) : Prop :=
  next_semaphore w = wnd_current_frame w
  /\ next_command_buffer w = wnd_current_frame w
  /\ wnd_lifetime_handled w = seq 0 (wnd_current_frame w)
  /\ wnd_present_dependencies w = []
  /\ wnd_image_available_consumed w = false
  /\ exists of_frames,
       queue_submissions w = layout_transitions_submission :: of_frames
       /\ length of_frames = 2 * wnd_current_frame w
       /\ (forall k, k < wnd_current_frame w ->
           exists transfer draw,
             nth_error of_frames (2 * k) = Some transfer
             /\ nth_error of_frames (2 * k + 1) = Some draw
             /\ sub_waits transfer = []
             /\ sub_signals transfer = [(created_semaphore k, stage_copy)]
             /\ sub_waits draw = [(image_available_semaphore k, stage_early_fragment_tests)]
             /\ sub_signals draw = []
             /\ sub_command_buffer draw = Some k).

(** The projection [initialize] sets, for an aspect ratio. *)
Definition initial_perspective (aspect_ratio : float) : float * float * float * float :=
  (glm_radians (float_lit 600 (-1)), aspect_ratio, float_lit 3 (-1), float_lit 10000 (-1)).

End RecordedCommands.

(** ** A concrete instance of the external interfaces

    Numbers are integers in thousandths, vectors are tuples and a matrix is
    the list of numbers it was built from; enough to run the model on
    concrete inputs. *)

Definition example_externals : Externals :=
  {| float := Z;
     mat4 := list Z;
     vec3 := Z * Z * Z;
     vec4 := Z * Z * Z * Z;
     float_lit := fun m e => (m * 10 ^ (e + 3))%Z;
     fsub := Z.sub;
     glm_radians := fun deg => (deg * 3142 / 180000)%Z;
     glm_vec3 := fun x y z => (x, y, z);
     glm_vec4_splat := fun s => (s, s, s, s);
     glm_translate := fun v => let '(x, y, z) := v in [x; y; z];
     glm_identity := [];
     default_transform := [0; 0; 0; 0; 0; 0]%Z;
     transform_set_translation := fun v m => let '(x, y, z) := v in [x; y; z] ++ skipn 3 m;
     transform_look_along := fun v m => let '(x, y, z) := v in firstn 3 m ++ [x; y; z];
     view_matrix_of := fun m => map Z.opp m;
     translation_of := fun m => (nth 0 m 0, nth 1 m 0, nth 2 m 0)%Z;
     perspective := fun fov aspect near far => [fov; aspect; near; far];
     light_payload := Z;
     lightsource_gpu_data := list Z;
     light_for_gpu := fun m t p => Z.of_nat (type_index t) :: p :: m;
     default_gpu_data := [] |}.

(** In the example the animation moves every light with the elapsed time and
    every light is active. *)
Definition example_animate_lights
    (ls : list (@lightsource example_externals)) (elapsed : Z)
    : list (@lightsource example_externals) :=
  map (fun l : @lightsource example_externals =>
         @mk_lightsource example_externals (mType l) (Z.add (mLight l) elapsed)) ls.

Definition example_helpers : @Helpers example_externals :=
  @Build_Helpers example_externals 128 example_animate_lights (fun ls => ls).

(** Scenario A of the spec: two ambient lights and one directional light. *)
Definition scenario_A_lights : list (@lightsource example_externals) :=
  [ mk_lightsource (E := example_externals) ambient 1%Z;
    mk_lightsource (E := example_externals) ambient 2%Z;
    mk_lightsource (E := example_externals) directional 3%Z ].

(** A frame in which nothing is pressed or clicked. *)
Definition idle_input : @frame_input example_externals :=
  mk_frame_input (E := example_externals)
    false false false false false None 0%Z 16%Z None None.

(** A frame in which the GUI begins to occupy the mouse. *)
Definition hover_gui_input : @frame_input example_externals :=
  mk_frame_input (E := example_externals)
    false false false true false None 0%Z 16%Z None None.

(** A frame in which the box "Enable Quake Camera" is clicked. *)
Definition click_quake_checkbox_input : @frame_input example_externals :=
  mk_frame_input (E := example_externals)
    false false true false false None 0%Z 16%Z None None.

(** A frame in which escape is pressed. *)
Definition escape_input : @frame_input example_externals :=
  mk_frame_input (E := example_externals)
    true false false false false None 0%Z 16%Z None None.

(** A frame in which escape is pressed and the box is clicked. *)
Definition escape_and_click_input : @frame_input example_externals :=
  mk_frame_input (E := example_externals)
    true false true false false None 0%Z 16%Z None None.

(** A frame in which escape is pressed and the GUI begins to occupy the
    mouse. *)
Definition escape_and_hover_input : @frame_input example_externals :=
  mk_frame_input (E := example_externals)
    true false false true false None 0%Z 16%Z None None.

(** The world of the example when the render loop starts: no draw calls,
    the lights of scenario A and an aspect ratio of 16:9. *)
Definition example_initial_world : @world example_externals :=
  initial_world (E := example_externals) [] scenario_A_lights 1778%Z.

(** A run of [main] in which opening the window throws a runtime error. *)
Definition open_fails (s : main_step) : option exception :=
  match s with
  | step_open => Some avk_runtime_error
  | _ => None
  end.

(** A later frame: nothing pressed, later time readings. *)
Definition later_input : @frame_input example_externals :=
  mk_frame_input (E := example_externals)
    false false false false false None 500%Z 516%Z None None.

(** A frame in which the GUI stops occupying the mouse. *)
Definition leave_gui_input : @frame_input example_externals :=
  mk_frame_input (E := example_externals)
    false false false false true None 0%Z 16%Z None None.

(** A run of [main] in which loading the font of the GUI throws an exception
    that is neither of the two classes [main] catches. *)
Definition font_fails (s : main_step) : option exception :=
  match s with
  | step_set_custom_font => Some other_exception
  | _ => None
  end.






(** * Properties *)

(** ** The ranges of the light source block *)

Section LightRanges.

Context {E : Externals} {H : Helpers}.

Lemma count_lights_cons (p : lightsource -> bool) (l : lightsource) (ls : list lightsource) :
  count_lights p (l :: ls) = (if p l then 1 else 0) + count_lights p ls.
Proof.
  unfold count_lights. simpl. destruct (p l); reflexivity.
Qed.

(** The category counts add up to the number of lights. *)
Lemma count_of_type_total (ls : list lightsource) :
  count_of_type ambient ls + count_of_type directional ls
  + count_of_type point ls + count_of_type spot ls = length ls.
Proof.
  unfold count_of_type.
  induction ls as [|l ls IH]; [reflexivity|].
  rewrite !count_lights_cons. simpl length.
  destruct (mType l); simpl in *; lia.
Qed.

(** Begin and end index of every category as sums of category counts. *)
Lemma begin_end_index_counts (ls : list lightsource) :
  get_lightsource_type_begin_index ls ambient = 0
  /\ get_lightsource_type_end_index ls ambient = count_of_type ambient ls
  /\ get_lightsource_type_begin_index ls directional = count_of_type ambient ls
  /\ get_lightsource_type_end_index ls directional
     = count_of_type ambient ls + count_of_type directional ls
  /\ get_lightsource_type_begin_index ls point
     = count_of_type ambient ls + count_of_type directional ls
  /\ get_lightsource_type_end_index ls point
     = count_of_type ambient ls + count_of_type directional ls + count_of_type point ls
  /\ get_lightsource_type_begin_index ls spot
     = count_of_type ambient ls + count_of_type directional ls + count_of_type point ls
  /\ get_lightsource_type_end_index ls spot = length ls.
Proof.
  unfold get_lightsource_type_begin_index, get_lightsource_type_end_index, count_of_type.
  induction ls as [|l ls IH]; [repeat split; reflexivity|].
  rewrite !count_lights_cons. simpl length.
  destruct IH as (I1 & I2 & I3 & I4 & I5 & I6 & I7 & I8).
  rewrite I1, I2, I3, I4, I5, I6, I7, I8.
  destruct (mType l); simpl; repeat split; lia.
Qed.




Lemma count_lights_repeat (p : lightsource -> bool) (l : lightsource) (n : nat) :
  count_lights p (repeat l n) = if p l then n else 0.
Proof.
  induction n as [|n IH]; [destruct (p l); reflexivity|].
  cbn [repeat]. rewrite count_lights_cons, IH. destruct (p l); reflexivity.
Qed.



(** C4. With the window configured for three concurrent frames, an active
    light set of two ambient lights, one directional light and no point or
    spot lights yields the range block ambient [0,2), directional [2,3),
    point [3,3), spot [3,3). *)
Theorem scenario_A_range_block
    (activeLights : list lightsource) (aViewMatrix : mat4)
    (Hambient : count_of_type ambient activeLights = 2)
    (Hdirectional : count_of_type directional activeLights = 1)
    (Hpoint : count_of_type point activeLights = 0)
    (Hspot : count_of_type spot activeLights = 0) :
  cfg_number_of_concurrent_frames main_window_config = 3
  /\ let d := make_lightsource_data activeLights aViewMatrix in
     range_of d ambient = (0, 2)%Z
     /\ range_of d directional = (2, 3)%Z
     /\ range_of d point = (3, 3)%Z
     /\ range_of d spot = (3, 3)%Z.
Proof.
  split; [reflexivity|].
  pose proof (begin_end_index_counts activeLights)
    as (B1 & E1 & B2 & E2 & B3 & E3 & B4 & E4).
  pose proof (count_of_type_total activeLights) as Htot.
  rewrite Hambient, Hdirectional, Hpoint, Hspot in *.
  simpl in Htot. rewrite <- Htot in E4.
  unfold make_lightsource_data, glm_uvec4, range_of. simpl.
  rewrite B1, E1, B2, E2, B3, E3, B4, E4.
  repeat split; reflexivity.
Qed.

End LightRanges.

(** ** The submissions of [render] *)

Section RenderProperties.

Context {E : Externals} {H : Helpers}.

(** The value of the static [startTime] once [render] has passed it. *)
Lemma static_start_time_exec (inp : frame_input) (w : world) :
  static_start_time inp w
  = (match startTime w with Some t => t | None => in_time_at_static_init inp end,
     with_start_time
       (Some (match startTime w with Some t => t | None => in_time_at_static_init inp end)) w).
Proof.
  unfold static_start_time. destruct w as [? ? ? ? ? [t|] ? ? ? ? ? ? ? ? ? ?]; reflexivity.
Qed.

(** The world [render] leaves behind, field by field. *)
Lemma render_exec (inp : frame_input) (w : world) :
  let start := match startTime w with Some t => t | None => in_time_at_static_init inp end in
  let lights := animate_lights (helpers_lights w) (fsub (in_time inp) start) in
  let lightsData :=
    make_lightsource_data (get_active_lightsources lights) (view_matrix (mQuakeCam w)) in
  exec (render inp) w
  = mk_world (mDrawCalls w) (mOrbitCam w) (mQuakeCam w)
      (Some (uniforms_of (mQuakeCam w) (mNormalMappingStrength w)))
      (mNormalMappingStrength w) (Some start) (gui_callback_installed w)
      (composition_stopped w) (wnd_current_frame w) true
      (wnd_present_dependencies w ++ [created_semaphore (next_semaphore w)])
      (wnd_lifetime_handled w ++ [next_command_buffer w])
      ((queue_submissions w
        ++ [mk_submission [cmd_fill_lights_buffer lightsData] None []
              [(created_semaphore (next_semaphore w), stage_copy)]])
       ++ [mk_submission (draw_commands (wnd_current_frame w) (mDrawCalls w))
             (Some (next_command_buffer w))
             [(image_available_semaphore (wnd_current_frame w), stage_early_fragment_tests)]
             []])
      (S (next_semaphore w)) (S (next_command_buffer w)) lights.
Proof.
  unfold exec, render, bind, gets, modify, ret,
    consume_current_image_available_semaphore, fill_uniforms_buffer,
    animate_lights_in_place,
    record_and_submit_with_semaphore, add_present_dependency_for_current_frame,
    alloc_command_buffer, record_into_command_buffer_and_submit, handle_lifetime.
  simpl. rewrite static_start_time_exec. reflexivity.
Qed.

Lemma skipn_length_app {A : Type} (l l' : list A) : skipn (length l) (l ++ l') = l'.
Proof.
  induction l as [|a l IH]; simpl; auto.
Qed.

(** [render] submits two batches: the transfer into the lights buffer, then
    the draw commands. *)
Lemma render_submissions (inp : frame_input) (w : world) :
  let start := match startTime w with Some t => t | None => in_time_at_static_init inp end in
  let lightsData :=
    make_lightsource_data
      (get_active_lightsources
         (animate_lights (helpers_lights w) (fsub (in_time inp) start)))
      (view_matrix (mQuakeCam w)) in
  submitted_by (render inp) w
  = [ mk_submission [cmd_fill_lights_buffer lightsData] None []
        [(created_semaphore (next_semaphore w), stage_copy)];
      mk_submission (draw_commands (wnd_current_frame w) (mDrawCalls w))
        (Some (next_command_buffer w))
        [(image_available_semaphore (wnd_current_frame w), stage_early_fragment_tests)]
        [] ].
Proof.
  intros start lightsData. unfold submitted_by.
  rewrite render_exec. cbn [queue_submissions].
  rewrite <- app_assoc. apply skipn_length_app.
Qed.

Lemma render_present_dependencies (inp : frame_input) (w : world) :
  present_dependencies_added_by (render inp) w = [created_semaphore (next_semaphore w)].
Proof.
  unfold present_dependencies_added_by.
  rewrite render_exec. cbn [wnd_present_dependencies].
  apply skipn_length_app.
Qed.

Lemma last_lights_fill_app (cs cs' : list command) (acc : option lightsource_data) :
  last_lights_fill (cs ++ cs') acc = last_lights_fill cs' (last_lights_fill cs acc).
Proof.
  revert acc. induction cs as [|c cs IH]; intros acc; [reflexivity|].
  destruct c; simpl; apply IH.
Qed.

(** The draw commands contain no transfer into the lights buffer. *)
Lemma last_lights_fill_draw_commands
    (frame : nat) (calls : list data_for_draw_call) (acc : option lightsource_data) :
  last_lights_fill (draw_commands frame calls) acc = acc.
Proof.
  unfold draw_commands. simpl.
  rewrite last_lights_fill_app. simpl.
  induction calls as [|c calls IH]; [reflexivity|]. simpl. exact IH.
Qed.

(** After [render] the lights buffer will hold the block of this call. *)
Lemma render_lights_buffer_contents (inp : frame_input) (w : world) :
  lights_buffer_contents (exec (render inp) w)
  = Some (make_lightsource_data
            (get_active_lightsources
               (animate_lights (helpers_lights w)
                  (fsub (in_time inp)
                     match startTime w with
                     | Some t => t
                     | None => in_time_at_static_init inp
                     end)))
            (view_matrix (mQuakeCam w))).
Proof.
  rewrite render_exec. unfold lights_buffer_contents. cbn [queue_submissions].
  rewrite !fold_left_app. cbn [fold_left sub_commands].
  rewrite last_lights_fill_draw_commands. reflexivity.
Qed.

(** C1 (what the code does). In every frame [render] submits the transfer
    into the lights buffer, which signals one new semaphore after its copy
    stage, and then the draw commands, which bind the lights buffer; the
    semaphore becomes a present dependency of the frame, and no stage of the
    draw submission waits for it. *)
Theorem render_draw_never_waits_for_lights_transfer (inp : frame_input) (w : world) :
  exists transfer draw,
    submitted_by (render inp) w = [transfer; draw]
    /\ (exists d, sub_commands transfer = [cmd_fill_lights_buffer d])
    /\ sub_signals transfer = [(created_semaphore (next_semaphore w), stage_copy)]
    /\ present_dependencies_added_by (render inp) w = [created_semaphore (next_semaphore w)]
    /\ binds_resource draw res_lights_buffer = true
    /\ sub_waits draw
       = [(image_available_semaphore (wnd_current_frame w), stage_early_fragment_tests)]
    /\ (forall st, stage_waits_for draw st (created_semaphore (next_semaphore w)) = false).
Proof.
  eexists. eexists. split; [apply render_submissions|].
  split; [eexists; reflexivity|].
  split; [reflexivity|].
  split; [apply render_present_dependencies|].
  split; [reflexivity|].
  split; [reflexivity|].
  intros st. reflexivity.
Qed.

(** C2 (as amended). In every frame the draw submission of [render] signals
    no semaphore, so its completion is not among the present dependencies of
    the frame: [render] itself does not make the present operation depend on
    the completion of its draw commands.  The one present dependency
    [render] adds is the semaphore the transfer into the lights buffer
    signals. *)
Theorem render_draw_completion_not_registered (inp : frame_input) (w : world) :
  exists transfer draw,
    submitted_by (render inp) w = [transfer; draw]
    /\ is_draw_submission transfer = false
    /\ is_draw_submission draw = true
    /\ sub_signals draw = []
    /\ (forall sem, signals draw sem = false)
    /\ present_dependencies_added_by (render inp) w = map fst (sub_signals transfer)
    /\ completion_is_present_dependency draw (exec (render inp) w) = false.
Proof.
  eexists. eexists. split; [apply render_submissions|].
  split; [reflexivity|].
  split; [reflexivity|].
  split; [reflexivity|].
  split; [intros sem; reflexivity|].
  split; [apply render_present_dependencies|].
  unfold completion_is_present_dependency.
  induction (wnd_present_dependencies (exec (render inp) w)) as [|sem deps IH];
    [reflexivity|exact IH].
Qed.

(** C6. In every frame the draw submission, which renders into the current
    backbuffer, lists the frame's image-available semaphore with the wait
    stage early fragment tests; that stage is the earliest of the stages in
    which the renderpass accesses its attachments, so every such stage waits
    for the semaphore. *)
Theorem render_draw_waits_for_image_available (inp : frame_input) (w : world) :
  exists transfer draw,
    submitted_by (render inp) w = [transfer; draw]
    /\ wnd_image_available_consumed (exec (render inp) w) = true
    /\ In (cmd_begin_render_pass (wnd_current_frame w)) (sub_commands draw)
    /\ In (image_available_semaphore (wnd_current_frame w), stage_early_fragment_tests)
          (sub_waits draw)
    /\ In stage_early_fragment_tests attachment_stages
    /\ (forall st, In st attachment_stages -> stage_leb stage_early_fragment_tests st = true)
    /\ (forall st, In st attachment_stages ->
          stage_waits_for draw st (image_available_semaphore (wnd_current_frame w)) = true).
Proof.
  eexists. eexists. split; [apply render_submissions|].
  split; [rewrite render_exec; reflexivity|].
  split; [left; reflexivity|].
  split; [left; reflexivity|].
  split; [left; reflexivity|].
  split.
  - intros st Hst. simpl in Hst.
    destruct Hst as [<-|[<-|[<-|[]]]]; reflexivity.
  - intros st Hst. unfold stage_waits_for. simpl. rewrite Nat.eqb_refl. simpl.
    simpl in Hst. destruct Hst as [<-|[<-|[<-|[]]]]; reflexivity.
Qed.


(** X1. Every call of [render] allocates one new command buffer, records the
    draw commands into it and hands that same buffer to the window, which
    takes care of its lifetime. *)
Theorem render_hands_command_buffer_to_window (inp : frame_input) (w : world) :
  exists transfer draw,
    submitted_by (render inp) w = [transfer; draw]
    /\ sub_command_buffer transfer = None
    /\ sub_command_buffer draw = Some (next_command_buffer w)
    /\ wnd_lifetime_handled (exec (render inp) w)
       = wnd_lifetime_handled w ++ [next_command_buffer w]
    /\ next_command_buffer (exec (render inp) w) = S (next_command_buffer w).
Proof.
  eexists. eexists. split; [apply render_submissions|].
  rewrite render_exec. repeat split.
Qed.

End RenderProperties.

(** ** The cameras *)

Section CameraProperties.

Context {E : Externals} {H : Helpers}.

Lemma exec_bind {A B : Type} (c : M A) (k : A -> M B) (w : world) :
  exec (bind c k) w = exec (k (fst (c w))) (snd (c w)).
Proof.
  unfold exec, bind. destruct (c w); reflexivity.
Qed.

(** [frame] is [update], the cameras' own update, [render], the GUI callback
    (when installed) and [render_frame], one after the other. *)
Lemma frame_exec (inp : frame_input) (w : world) :
  let w1 := exec (cameras_update inp) (exec (update inp) w) in
  let w2 := exec (render inp) w1 in
  exec (frame inp) w
  = exec render_frame (exec (when (gui_callback_installed w2) (gui_callback inp)) w2).
Proof.
  intros w1 w2. unfold frame.
  rewrite exec_bind. fold (exec (update inp) w).
  rewrite exec_bind. fold (exec (cameras_update inp) (exec (update inp) w)). fold w1.
  rewrite exec_bind. fold (exec (render inp) w1). fold w2.
  rewrite exec_bind. unfold gets at 1. cbn [fst snd].
  rewrite exec_bind. reflexivity.
Qed.

Ltac open_world w :=
  destruct w as [calls [o mo po] [q mq pq] ub str st gui stopped fr cons deps handled subs ns ncb lts].

Ltac open_input inp :=
  destruct inp as [esc close click bw ew slider t0 t ou qu].

(** [update] keeps the flags of both cameras and brings their matrices in
    line with the enabled one. *)
Lemma update_cameras (inp : frame_input) (w : world) :
  let w' := exec (update inp) w in
  is_enabled (mOrbitCam w') = is_enabled (mOrbitCam w)
  /\ is_enabled (mQuakeCam w') = is_enabled (mQuakeCam w)
  /\ cam_perspective (mOrbitCam w') = cam_perspective (mOrbitCam w)
  /\ cam_perspective (mQuakeCam w') = cam_perspective (mQuakeCam w)
  /\ matrix (mOrbitCam w')
     = (if is_enabled (mQuakeCam w) then matrix (mQuakeCam w) else matrix (mOrbitCam w))
  /\ matrix (mQuakeCam w')
     = (if is_enabled (mOrbitCam w)
        then (if is_enabled (mQuakeCam w) then matrix (mQuakeCam w) else matrix (mOrbitCam w))
        else matrix (mQuakeCam w))
  /\ mNormalMappingStrength w' = mNormalMappingStrength w
  /\ gui_callback_installed w' = gui_callback_installed w.
Proof.
  open_world w. open_input inp.
  destruct o, q, esc, close; cbv; repeat split.
Qed.

(** [update] stops the composition exactly in the cases of its condition. *)
Lemma update_stopped (inp : frame_input) (w : world) :
  composition_stopped (exec (update inp) w)
  = composition_stopped w
    || (negb (is_enabled (mQuakeCam w)) && in_escape_pressed inp)
    || in_should_be_closed inp.
Proof.
  open_world w. open_input inp.
  destruct o, q, esc, close, stopped; reflexivity.
Qed.

(** The cameras' own update moves the matrix of an enabled camera only and
    touches nothing else. *)
Lemma cameras_update_cameras (inp : frame_input) (w : world) :
  let w' := exec (cameras_update inp) w in
  is_enabled (mOrbitCam w') = is_enabled (mOrbitCam w)
  /\ is_enabled (mQuakeCam w') = is_enabled (mQuakeCam w)
  /\ cam_perspective (mOrbitCam w') = cam_perspective (mOrbitCam w)
  /\ cam_perspective (mQuakeCam w') = cam_perspective (mQuakeCam w)
  /\ (is_enabled (mOrbitCam w) = false \/ in_orbit_cam_update inp = None ->
      matrix (mOrbitCam w') = matrix (mOrbitCam w))
  /\ (is_enabled (mQuakeCam w) = false \/ in_quake_cam_update inp = None ->
      matrix (mQuakeCam w') = matrix (mQuakeCam w))
  /\ mNormalMappingStrength w' = mNormalMappingStrength w
  /\ gui_callback_installed w' = gui_callback_installed w
  /\ composition_stopped w' = composition_stopped w.
Proof.
  open_world w. open_input inp.
  destruct o, q, ou, qu; cbn; repeat split; intros [Hx|Hx]; discriminate || reflexivity.
Qed.

(** [render] does not touch the cameras, the settings or the composition. *)
Lemma render_keeps (inp : frame_input) (w : world) :
  let w' := exec (render inp) w in
  mOrbitCam w' = mOrbitCam w /\ mQuakeCam w' = mQuakeCam w
  /\ mNormalMappingStrength w' = mNormalMappingStrength w
  /\ composition_stopped w' = composition_stopped w
  /\ gui_callback_installed w' = gui_callback_installed w.
Proof.
  intros w'. unfold w'. rewrite render_exec. repeat split.
Qed.

(** The flags the GUI callback leaves, as a function of the flags it found
    and of the input; matrices, projections and the composition stay. *)
Lemma gui_callback_cameras (inp : frame_input) (w : world) :
  let w' := exec (gui_callback inp) w in
  let shown :=
    if in_quake_checkbox_clicked inp then negb (is_enabled (mQuakeCam w))
    else is_enabled (mQuakeCam w) in
  let switch_on := in_quake_checkbox_clicked inp && shown in
  let leave := shown && in_escape_pressed inp in
  let quake' := if leave then false else if switch_on then true else is_enabled (mQuakeCam w) in
  let orbit2 := if leave then true else if switch_on then false else is_enabled (mOrbitCam w) in
  let orbit3 := if in_begin_wanting_to_occupy_mouse inp && orbit2 then false else orbit2 in
  let orbit' := if in_end_wanting_to_occupy_mouse inp && negb quake' then true else orbit3 in
  is_enabled (mQuakeCam w') = quake'
  /\ is_enabled (mOrbitCam w') = orbit'
  /\ cam_matrix (mOrbitCam w') = cam_matrix (mOrbitCam w)
  /\ cam_matrix (mQuakeCam w') = cam_matrix (mQuakeCam w)
  /\ cam_perspective (mOrbitCam w') = cam_perspective (mOrbitCam w)
  /\ cam_perspective (mQuakeCam w') = cam_perspective (mQuakeCam w)
  /\ composition_stopped w' = composition_stopped w.
Proof.
  open_world w. open_input inp.
  destruct o, q, esc, click, bw, ew, slider; cbv; repeat split.
Qed.

(** The world in which the GUI callback of a frame runs has the flags and
    the projections the frame found, and the frame leaves the cameras as the
    GUI callback (when it is installed) leaves them. *)
Lemma frame_flags (inp : frame_input) (w : world) :
  exists w2,
    is_enabled (mOrbitCam w2) = is_enabled (mOrbitCam w)
    /\ is_enabled (mQuakeCam w2) = is_enabled (mQuakeCam w)
    /\ mOrbitCam (exec (frame inp) w)
       = mOrbitCam (exec (when (gui_callback_installed w) (gui_callback inp)) w2)
    /\ mQuakeCam (exec (frame inp) w)
       = mQuakeCam (exec (when (gui_callback_installed w) (gui_callback inp)) w2)
    /\ cam_perspective (mOrbitCam w2) = cam_perspective (mOrbitCam w)
    /\ cam_perspective (mQuakeCam w2) = cam_perspective (mQuakeCam w).
Proof.
  exists (exec (render inp) (exec (cameras_update inp) (exec (update inp) w))).
  pose proof (update_cameras inp w) as (Ho & Hq & Hpo & Hpq & _ & _ & _ & Hg).
  pose proof (cameras_update_cameras inp (exec (update inp) w))
    as (Co & Cq & Cpo & Cpq & _ & _ & _ & Cg & _).
  pose proof (render_keeps inp (exec (cameras_update inp) (exec (update inp) w)))
    as (Ro & Rq & _ & _ & Rg).
  rewrite Ro, Rq, Co, Cq, Ho, Hq, Cpo, Cpq, Hpo, Hpq.
  split; [reflexivity|]. split; [reflexivity|].
  rewrite frame_exec. cbv zeta. rewrite Rg, Cg, Hg.
  repeat split.
Qed.

(** A pass of the GUI callback keeps cameras in step in step. *)
Lemma gui_callback_in_step (inp : frame_input) (w : world) :
  cameras_in_step w -> cameras_in_step (exec (gui_callback inp) w).
Proof.
  intros (Hnb & Hp).
  pose proof (gui_callback_cameras inp w) as (Hq & Ho & _ & _ & Hpo & Hpq & _).
  unfold cameras_in_step. rewrite Hq, Ho, Hpo, Hpq.
  split; [|assumption].
  destruct (is_enabled (mOrbitCam w)), (is_enabled (mQuakeCam w));
    try discriminate;
    destruct (in_quake_checkbox_clicked inp), (in_escape_pressed inp),
      (in_begin_wanting_to_occupy_mouse inp), (in_end_wanting_to_occupy_mouse inp);
    reflexivity.
Qed.

Lemma frame_in_step (inp : frame_input) (w : world) :
  cameras_in_step w -> cameras_in_step (exec (frame inp) w).
Proof.
  intros (Hnb & Hp).
  destruct (frame_flags inp w) as (w2 & Ho & Hq & Fo & Fq & Po & Pq).
  assert (H2 : cameras_in_step w2).
  { unfold cameras_in_step. rewrite Ho, Hq, Po, Pq. split; assumption. }
  unfold cameras_in_step. rewrite Fo, Fq.
  destruct (gui_callback_installed w); cbn [when].
  - apply gui_callback_in_step, H2.
  - exact H2.
Qed.

(** Every event of the render loop keeps the cameras in step. *)
Lemma apply_event_in_step (w : world) (ev : event) :
  cameras_in_step w -> cameras_in_step (apply_event w ev).
Proof.
  intros Hw. unfold apply_event.
  destruct (composition_stopped w); [exact Hw|].
  destruct ev as [inp|aspect|m1 m2|ls].
  - apply frame_in_step, Hw.
  - destruct Hw as (Hnb & Hp).
    destruct w as [calls [o om op] [q qm qp] ub str st gui stopped fr cons deps handled subs ns ncb lts].
    unfold cameras_in_step. cbn in *. subst qp.
    destruct op as [[[[fov asp] near] far]|]; cbn; repeat split; auto.
  - destruct Hw as (Hnb & Hp).
    destruct w as [calls [o om op] [q qm qp] ub str st gui stopped fr cons deps handled subs ns ncb lts].
    unfold cameras_in_step. cbn in *.
    destruct o, q; cbn in *; try discriminate; repeat split; auto.
  - destruct w. exact Hw.
Qed.

Lemma run_events_in_step (evs : list event) (w : world) :
  cameras_in_step w -> cameras_in_step (run_events w evs).
Proof.
  revert w. induction evs as [|ev evs IH]; intros w Hw; [exact Hw|].
  simpl. apply IH, apply_event_in_step, Hw.
Qed.

Lemma initial_world_in_step
    (aDrawCalls : list data_for_draw_call) (aLights : list lightsource)
    (aspect_ratio : float) :
  cameras_in_step (initial_world aDrawCalls aLights aspect_ratio).
Proof.
  repeat split.
Qed.

(** The cameras are in step in every world the render loop reaches. *)
Lemma world_after_in_step
    (aDrawCalls : list data_for_draw_call) (aLights : list lightsource)
    (aspect_ratio : float) (evs : list event) :
  cameras_in_step (world_after aDrawCalls aLights aspect_ratio evs).
Proof.
  apply run_events_in_step, initial_world_in_step.
Qed.

(** An event keeps exactly one camera enabled unless it leaves the GUI
    occupying the mouse; an event that ends the occupation leaves exactly
    one camera enabled. *)
Lemma apply_event_exactly_one (w : world) (occupied : bool) (ev : event) :
  cameras_in_step w ->
  (occupied = false ->
   xorb (is_enabled (mOrbitCam w)) (is_enabled (mQuakeCam w)) = true) ->
  occupies_mouse_after_event w occupied ev = false ->
  xorb (is_enabled (mOrbitCam (apply_event w ev)))
       (is_enabled (mQuakeCam (apply_event w ev))) = true.
Proof.
  intros (Hnb & _) Hw. unfold apply_event, occupies_mouse_after_event.
  destruct (composition_stopped w); [exact Hw|].
  destruct ev as [inp|aspect|m1 m2|ls].
  - destruct (frame_flags inp w) as (w2 & Ho & Hq & Fo & Fq & _).
    rewrite Fo, Fq.
    destruct (gui_callback_installed w); cbn [when];
      [|intros Hocc; change (exec (ret tt) w2) with w2; rewrite Ho, Hq; exact (Hw Hocc)].
    pose proof (gui_callback_cameras inp w2) as (Gq & Go & _).
    rewrite Gq, Go, Ho, Hq.
    destruct (in_end_wanting_to_occupy_mouse inp).
    + intros _.
      destruct (is_enabled (mOrbitCam w)), (is_enabled (mQuakeCam w));
        try discriminate;
        destruct (in_quake_checkbox_clicked inp), (in_escape_pressed inp),
          (in_begin_wanting_to_occupy_mouse inp); reflexivity.
    + destruct (in_begin_wanting_to_occupy_mouse inp); [discriminate|].
      intros Hocc. specialize (Hw Hocc).
      destruct (is_enabled (mOrbitCam w)), (is_enabled (mQuakeCam w));
        try discriminate;
        destruct (in_quake_checkbox_clicked inp), (in_escape_pressed inp); reflexivity.
  - intros Hocc. specialize (Hw Hocc).
    destruct w as [calls [o om op] [q qm qp] ub str st gui stopped fr cons deps handled subs ns ncb lts].
    cbn in *. destruct op as [[[[? ?] ?] ?]|], qp as [[[[? ?] ?] ?]|]; exact Hw.
  - intros Hocc. specialize (Hw Hocc).
    destruct w as [calls [o om op] [q qm qp] ub str st gui stopped fr cons deps handled subs ns ncb lts].
    cbn in *. destruct o, q; exact Hw.
  - intros Hocc. specialize (Hw Hocc). destruct w. exact Hw.
Qed.

Lemma run_events_exactly_one (evs : list event) (w : world) (occupied : bool) :
  cameras_in_step w ->
  (occupied = false ->
   xorb (is_enabled (mOrbitCam w)) (is_enabled (mQuakeCam w)) = true) ->
  occupies_mouse_after w occupied evs = false ->
  xorb (is_enabled (mOrbitCam (run_events w evs)))
       (is_enabled (mQuakeCam (run_events w evs))) = true.
Proof.
  revert w occupied. induction evs as [|ev evs IH]; intros w occupied Hstep Hw Hocc.
  - apply Hw. exact Hocc.
  - cbn [run_events fold_left occupies_mouse_after] in *.
    apply (IH (apply_event w ev) (occupies_mouse_after_event w occupied ev)).
    + apply apply_event_in_step, Hstep.
    + intros Hocc1. apply (@apply_event_exactly_one w occupied ev Hstep Hw Hocc1).
    + exact Hocc.
Qed.

(** C5 (as amended). In every world the render loop reaches between its
    callbacks at most one of the two cameras is enabled; exactly one is
    enabled except while the GUI occupies the mouse, that is after a GUI
    pass that reported the begin of occupying the mouse and until a pass
    reports its end (meanwhile the orbit camera is switched off and both
    cameras may be disabled); and whenever a pass of the GUI callback
    switches one camera on, it leaves the other one disabled. *)
Theorem cameras_never_both_enabled
    (aDrawCalls : list data_for_draw_call) (aLights : list lightsource)
    (aspect_ratio : float) (evs : list event) :
  let w := world_after aDrawCalls aLights aspect_ratio evs in
  is_enabled (mOrbitCam w) && is_enabled (mQuakeCam w) = false
  /\ (gui_occupies_mouse aDrawCalls aLights aspect_ratio evs = false ->
      xorb (is_enabled (mOrbitCam w)) (is_enabled (mQuakeCam w)) = true)
  /\ (forall inp,
        let w' := exec (gui_callback inp) w in
        (is_enabled (mQuakeCam w) = false -> is_enabled (mQuakeCam w') = true ->
         is_enabled (mOrbitCam w') = false)
        /\ (is_enabled (mOrbitCam w) = false -> is_enabled (mOrbitCam w') = true ->
            is_enabled (mQuakeCam w') = false)).
Proof.
  intros w.
  split; [apply (world_after_in_step aDrawCalls aLights aspect_ratio evs)|].
  split.
  - intros Hocc. unfold w, world_after.
    apply (@run_events_exactly_one evs _ false).
    + apply initial_world_in_step.
    + reflexivity.
    + exact Hocc.
  - intros inp w'.
    pose proof (gui_callback_cameras inp w) as (Gq & Go & _).
    fold w' in Gq, Go. rewrite Gq, Go.
    destruct (is_enabled (mOrbitCam w)), (is_enabled (mQuakeCam w)),
      (in_quake_checkbox_clicked inp), (in_escape_pressed inp),
      (in_begin_wanting_to_occupy_mouse inp), (in_end_wanting_to_occupy_mouse inp);
      cbn; split; intros; congruence.
Qed.

(** C9 (as amended). With escape pressed (and no close request) [update]
    stops the composition exactly when the quake camera is disabled.  When
    the quake camera is enabled and its check box is not clicked in the same
    frame, escape makes the GUI callback disable the quake camera and enable
    the orbit camera, which stays enabled unless the GUI begins to occupy the
    mouse in that pass, and the frame does not stop the composition.  The
    close flag of the window stops the composition whichever camera is
    enabled. *)
Theorem escape_key_and_close_flag (inp : frame_input) (w : world) :
  (in_escape_pressed inp = true -> in_should_be_closed inp = false ->
   composition_stopped w = false ->
   (composition_stopped (exec (update inp) w) = true <-> is_enabled (mQuakeCam w) = false))
  /\ (in_escape_pressed inp = true -> is_enabled (mQuakeCam w) = true ->
      in_quake_checkbox_clicked inp = false ->
      let w' := exec (gui_callback inp) (exec (render inp) (exec (update inp) w)) in
      is_enabled (mQuakeCam w') = false
      /\ is_enabled (mOrbitCam w')
         = negb (in_begin_wanting_to_occupy_mouse inp) || in_end_wanting_to_occupy_mouse inp
      /\ (in_should_be_closed inp = false -> composition_stopped w = false ->
          composition_stopped w' = false))
  /\ (in_should_be_closed inp = true -> composition_stopped (exec (update inp) w) = true).
Proof.
  split; [|split].
  - intros Hesc Hclose Hrun. rewrite update_stopped, Hesc, Hclose, Hrun.
    destruct (is_enabled (mQuakeCam w)); cbn; split; congruence.
  - intros Hesc Hq Hclick w'.
    pose proof (update_cameras inp w) as (Uo & Uq & _).
    pose proof (render_keeps inp (exec (update inp) w)) as (Ro & Rq & _ & Rs & _).
    pose proof (gui_callback_cameras inp (exec (render inp) (exec (update inp) w)))
      as (Gq & Go & _ & _ & _ & _ & Gs).
    fold w' in Gq, Go, Gs.
    rewrite Gq, Go, Gs, Rs, Ro, Rq, Uo, Uq, Hq, Hclick, Hesc, update_stopped, Hq, Hesc.
    cbn. split; [reflexivity|]. split.
    + destruct (in_begin_wanting_to_occupy_mouse inp), (in_end_wanting_to_occupy_mouse inp);
        reflexivity.
    + intros -> ->. reflexivity.
  - intros Hclose. rewrite update_stopped, Hclose. apply orb_true_r.
Qed.


End CameraProperties.

(** ** The exit code of [main] *)

Section MainProperties.

Variable throws : main_step -> option exception.

(** When no statement throws, all are executed. *)
Lemma run_steps_complete (steps : list main_step) (st : main_state) :
  (forall s, In s steps -> throws s = None) ->
  run_steps throws steps st = (mk_main_state (result st) (executed st ++ steps), None).
Proof.
  revert st. induction steps as [|s steps IH]; intros st Hok; simpl.
  - rewrite app_nil_r. destruct st; reflexivity.
  - rewrite (Hok s (or_introl eq_refl)).
    rewrite IH by (intros x Hx; apply Hok; right; exact Hx).
    simpl. rewrite <- app_assoc. reflexivity.
Qed.

(** The first statement that throws is the last one executed. *)
Lemma run_steps_throw
    (before after : list main_step) (s : main_step) (e : exception) (st : main_state) :
  (forall x, In x before -> throws x = None) ->
  throws s = Some e ->
  run_steps throws (before ++ s :: after) st
  = (mk_main_state (result st) (executed st ++ before ++ [s]), Some e).
Proof.
  revert st. induction before as [|b before IH]; intros st Hok Hs; simpl.
  - rewrite Hs. reflexivity.
  - rewrite (Hok b (or_introl eq_refl)).
    rewrite IH by (try (intros x Hx; apply Hok; right; exact Hx); exact Hs).
    simpl. rewrite <- app_assoc. reflexivity.
Qed.

(** A run without exception means that no statement throws, and the
    statements executed are always an initial segment of the block. *)
Lemma run_steps_outcome (steps : list main_step) (st : main_state) :
  (snd (run_steps throws steps st) = None -> forall s, In s steps -> throws s = None)
  /\ result (fst (run_steps throws steps st)) = result st
  /\ exists n, executed (fst (run_steps throws steps st)) = executed st ++ firstn n steps.
Proof.
  revert st. induction steps as [|s steps IH]; intros st; simpl.
  - split; [intros _ x []|]. split; [reflexivity|].
    exists 0. rewrite app_nil_r. reflexivity.
  - destruct (throws s) as [e|] eqn:Hs; simpl.
    + split; [discriminate|]. split; [reflexivity|]. exists 1. reflexivity.
    + destruct (IH (mk_main_state (result st) (executed st ++ [s]))) as (Hnone & Hres & n & Hn).
      split; [|split].
      * intros Hrun x [<-|Hx]; [exact Hs|apply Hnone; assumption].
      * exact Hres.
      * exists (S n). rewrite Hn. simpl. rewrite <- app_assoc. reflexivity.
Qed.

Lemma try_block_steps_NoDup : NoDup try_block_steps.
Proof.
  unfold try_block_steps.
  repeat (constructor; [simpl; intuition discriminate|]). constructor.
Qed.

Lemma In_firstn {A : Type} (n : nat) (l : list A) (x : A) : In x (firstn n l) -> In x l.
Proof.
  revert n. induction l as [|a l IH]; intros n Hin; destruct n; simpl in *; try contradiction.
  destruct Hin as [->|Hin]; [left; reflexivity|right; apply (IH n Hin)].
Qed.

Lemma NoDup_firstn {A : Type} (n : nat) (l : list A) : NoDup l -> NoDup (firstn n l).
Proof.
  revert n. induction l as [|a l IH]; intros n Hl; destruct n; simpl; try constructor.
  - inversion Hl as [|? ? Hnotin Hl']; subst.
    intros Hin. apply Hnotin. apply (In_firstn _ _ _ Hin).
  - inversion Hl; subst. apply IH. assumption.
Qed.

(** C8. [main] returns [EXIT_SUCCESS] exactly when every statement of the
    [try] block, the render loop last, ran to completion.  When a statement
    throws a logic error or a runtime error, [main] returns [EXIT_FAILURE]
    and the statements executed are those up to the throwing one: nothing
    after it runs, nothing runs twice, nothing is undone.  No other exit code
    exists. *)
Theorem main_exit_code :
  ((forall s, In s try_block_steps -> throws s = None) ->
   main throws = (returns EXIT_SUCCESS, try_block_steps))
  /\ (fst (main throws) = returns EXIT_SUCCESS ->
      forall s, In s try_block_steps -> throws s = None)
  /\ (forall before s after e,
        try_block_steps = before ++ s :: after ->
        (forall x, In x before -> throws x = None) ->
        throws s = Some e ->
        e = avk_logic_error \/ e = avk_runtime_error ->
        main throws = (returns EXIT_FAILURE, before ++ [s]))
  /\ NoDup (snd (main throws))
  /\ (forall code, fst (main throws) = returns code ->
        code = EXIT_SUCCESS \/ code = EXIT_FAILURE)
  /\ EXIT_SUCCESS <> EXIT_FAILURE.
Proof.
  split; [|split; [|split; [|split; [|split]]]].
  - intros Hok. unfold main. rewrite run_steps_complete by exact Hok. reflexivity.
  - unfold main.
    destruct (run_steps_outcome try_block_steps (mk_main_state EXIT_FAILURE []))
      as (Hnone & Hres & _).
    destruct (run_steps throws try_block_steps (mk_main_state EXIT_FAILURE []))
      as [st [e|]] eqn:Hrun; cbn [fst snd] in *.
    + simpl in Hres. destruct e; cbn [fst]; rewrite ?Hres; discriminate.
    + intros _. apply Hnone. reflexivity.
  - intros before s after e Hsplit Hok Hs He. unfold main.
    rewrite Hsplit, (@run_steps_throw before after s e (mk_main_state EXIT_FAILURE []) Hok Hs).
    destruct He as [->| ->]; reflexivity.
  - unfold main.
    destruct (run_steps_outcome try_block_steps (mk_main_state EXIT_FAILURE []))
      as (_ & _ & n & Hn).
    assert (Hnd : NoDup (executed (fst (run_steps throws try_block_steps
                                          (mk_main_state EXIT_FAILURE []))))).
    { rewrite Hn. simpl. apply NoDup_firstn, try_block_steps_NoDup. }
    destruct (run_steps throws try_block_steps (mk_main_state EXIT_FAILURE []))
      as [st [e|]]; cbn [fst snd] in *; [destruct e|]; exact Hnd.
  - intros code _. destruct code; [left|right]; reflexivity.
  - discriminate.
Qed.

End MainProperties.

(** ** The frame-rate history *)

Section FrameRateHistoryProperties.

Context {E : Externals}.

Variable fadd : float -> float -> float.
Variable fdiv : float -> float -> float.

Lemma keep_last_short {A : Type} (k : nat) (l : list A) :
  length l <= k -> keep_last k l = l.
Proof.
  intros Hl. unfold keep_last.
  replace (length l - k) with 0 by lia. reflexivity.
Qed.

Lemma keep_last_length {A : Type} (k : nat) (l : list A) :
  length (keep_last k l) = Nat.min (length l) k.
Proof.
  unfold keep_last. rewrite length_skipn. lia.
Qed.

(** Dropping the oldest element of a list that outgrew [k] does not change
    which [k] elements are the last ones once more are appended. *)
Lemma keep_last_drop_oldest {A : Type} (k : nat) (l tail : list A) :
  length l <= S k ->
  keep_last k ((if k <? length l then tl l else l) ++ tail) = keep_last k (l ++ tail).
Proof.
  intros Hl.
  destruct (k <? length l) eqn:Hk; [|reflexivity].
  apply Nat.ltb_lt in Hk.
  destruct l as [|x l]; [simpl in Hk; lia|].
  simpl in Hl, Hk. assert (Hlen : length l = k) by lia.
  unfold keep_last. cbn [tl]. rewrite !length_app. cbn [length].
  replace (S (length l) + length tail - k) with (S (length l + length tail - k)) by lia.
  reflexivity.
Qed.

Lemma skipn_add {A : Type} (n m : nat) (l : list A) :
  skipn (n + m) l = skipn m (skipn n l).
Proof.
  revert l. induction n as [|n IH]; intros l; [reflexivity|].
  destruct l as [|x l]; [simpl; rewrite skipn_nil; reflexivity|]. simpl. apply IH.
Qed.

Lemma skipn_exact_app {A : Type} (n : nat) (l l' : list A) :
  length l = n -> skipn n (l ++ l') = l'.
Proof.
  intros <-. induction l as [|x l IH]; [reflexivity|exact IH].
Qed.

Lemma firstn_exact_app {A : Type} (n : nat) (l l' : list A) :
  length l = n -> firstn n (l ++ l') = l.
Proof.
  intros <-. induction l as [|x l IH]; [reflexivity|]. simpl. rewrite IH. reflexivity.
Qed.

(** One pass of the callback on statics within their bounds. *)
Lemma record_framerate_cases (f : float) (a v : list float) :
  length a < 10 -> length v <= 90 ->
  (length a = 9
   /\ record_framerate fadd fdiv f (mk_fps_history a v)
      = mk_fps_history []
          (if 90 <? length (v ++ [block_average fadd fdiv (a ++ [f])])
           then tl (v ++ [block_average fadd fdiv (a ++ [f])])
           else v ++ [block_average fadd fdiv (a ++ [f])]))
  \/ (length a < 9
      /\ record_framerate fadd fdiv f (mk_fps_history a v) = mk_fps_history (a ++ [f]) v).
Proof.
  intros Ha Hv. unfold record_framerate. cbn [accum values].
  rewrite length_app. cbn [length].
  destruct (length a + 1 =? 10) eqn:Hten.
  - apply Nat.eqb_eq in Hten. left. split; [lia|reflexivity].
  - apply Nat.eqb_neq in Hten. right. split; [lia|].
    replace (90 <? length v) with false; [reflexivity|].
    symmetry. apply Nat.ltb_ge. exact Hv.
Qed.

(** The statics after any number of passes, from statics within their
    bounds: [accum] is the incomplete last block, [values] the last ninety
    of the old values followed by the averages of the complete blocks. *)
Lemma fps_fold_content (frs a v : list float) :
  length a < 10 -> length v <= 90 ->
  let h := fold_left (fun h f => record_framerate fadd fdiv f h) frs (mk_fps_history a v) in
  let blocks := (length a + length frs) / 10 in
  accum h = skipn (10 * blocks) (a ++ frs)
  /\ values h
     = keep_last 90
         (v ++ map (fun j => block_average fadd fdiv (block_of_ten (a ++ frs) j))
                   (seq 0 blocks)).
Proof.
  revert a v. induction frs as [|f rest IH]; intros a v Ha Hv; cbn zeta.
  - cbn [fold_left length accum values]. rewrite Nat.add_0_r, app_nil_r.
    replace (length a / 10) with 0 by (symmetry; apply Nat.div_small; exact Ha).
    cbn. rewrite app_nil_r. split; [reflexivity|].
    symmetry. apply keep_last_short. exact Hv.
  - cbn [fold_left].
    destruct (@record_framerate_cases f a v Ha Hv) as [[Hnine ->]|[Hless ->]].
    + set (avg := block_average fadd fdiv (a ++ [f])).
      set (v' := if 90 <? length (v ++ [avg]) then tl (v ++ [avg]) else v ++ [avg]).
      assert (Hv1 : length (v ++ [avg]) <= 91) by (rewrite length_app; simpl; lia).
      assert (Hv' : length v' <= 90).
      { unfold v'. destruct (90 <? length (v ++ [avg])) eqn:Hk.
        - destruct (v ++ [avg]); simpl in *; lia.
        - apply Nat.ltb_ge in Hk. exact Hk. }
      specialize (IH [] v' (Nat.lt_0_succ 9) Hv'). cbn zeta in IH.
      cbn [length app] in IH. rewrite Nat.add_0_l in IH.
      destruct IH as [IHa IHv]. rewrite IHa, IHv. clear IHa IHv.
      cbn [length].
      replace ((length a + S (length rest)) / 10) with (S (length rest / 10))
        by (rewrite Hnine;
            replace (9 + S (length rest)) with (length rest + 1 * 10) by lia;
            rewrite Nat.div_add by lia; lia).
      assert (Hblock : length (a ++ [f]) = 10) by (rewrite length_app; simpl; lia).
      assert (Happ : a ++ f :: rest = (a ++ [f]) ++ rest)
        by (rewrite <- app_assoc; reflexivity).
      split.
      * replace (10 * S (length rest / 10)) with (10 + 10 * (length rest / 10)) by lia.
        rewrite skipn_add, Happ, (@skipn_exact_app _ 10 (a ++ [f]) rest Hblock). reflexivity.
      * unfold v'. rewrite (@keep_last_drop_oldest _ 90 (v ++ [avg]) _ Hv1).
        rewrite <- app_assoc. cbn [app]. f_equal. f_equal.
        cbn [seq map]. f_equal.
        -- unfold avg, block_of_ten. change (10 * 0) with 0. cbn [skipn].
           rewrite Happ, (@firstn_exact_app _ 10 (a ++ [f]) rest Hblock). reflexivity.
        -- rewrite <- seq_shift, map_map. apply map_ext. intros j.
           unfold block_of_ten.
           replace (10 * S j) with (10 + 10 * j) by lia.
           rewrite skipn_add, Happ, (@skipn_exact_app _ 10 (a ++ [f]) rest Hblock). reflexivity.
    + assert (Ha' : length (a ++ [f]) < 10) by (rewrite length_app; simpl; lia).
      specialize (IH (a ++ [f]) v Ha' Hv). cbn zeta in IH.
      rewrite length_app in IH. cbn [length] in IH.
      rewrite <- app_assoc in IH. cbn [app] in IH.
      replace (length a + 1 + length rest) with (length a + S (length rest)) in IH by lia.
      exact IH.
Qed.

(** X2. Started with empty statics, after any number of passes of the GUI
    callback the block under accumulation holds fewer than ten frame rates
    (those since the last complete block of ten) and at most ninety averages
    are plotted: one per complete block, capped at ninety. *)
Theorem fps_history_sizes (framerates : list float) :
  let h := fps_history_after fadd fdiv framerates in
  length (accum h) = length framerates mod 10
  /\ length (values h) = Nat.min (length framerates / 10) 90
  /\ length (accum h) < 10
  /\ length (values h) <= 90.
Proof.
  intros h. unfold h, fps_history_after, no_fps_history.
  destruct (@fps_fold_content framerates [] [] (Nat.lt_0_succ 9) (Nat.le_0_l 90))
    as [Ha Hv].
  cbn [length app] in Ha, Hv. rewrite Nat.add_0_l in Ha, Hv.
  rewrite Ha, Hv, length_skipn, keep_last_length, length_map, length_seq.
  pose proof (Nat.div_mod_eq (length framerates) 10) as Hdm.
  pose proof (Nat.mod_upper_bound (length framerates) 10) as Hmod.
  repeat split; lia.
Qed.

(** X3. Started with empty statics, the values the GUI callback plots are
    the averages of the complete blocks of ten consecutive frame rates, in
    order, the last ninety of them once there are more; the frame rates of
    the incomplete last block are what [accum] holds. *)
Theorem fps_history_plots_recent_block_averages (framerates : list float) :
  let h := fps_history_after fadd fdiv framerates in
  values h
  = keep_last 90
      (map (fun j => block_average fadd fdiv (block_of_ten framerates j))
           (seq 0 (length framerates / 10)))
  /\ accum h = skipn (10 * (length framerates / 10)) framerates.
Proof.
  intros h. unfold h, fps_history_after, no_fps_history.
  destruct (@fps_fold_content framerates [] [] (Nat.lt_0_succ 9) (Nat.le_0_l 90))
    as [Ha Hv].
  cbn [length app] in Ha, Hv. rewrite Nat.add_0_l in Ha, Hv.
  split; assumption.
Qed.

End FrameRateHistoryProperties.

(** ** Further properties of the callbacks *)

Section CallbackProperties.

Context {E : Externals} {H : Helpers}.

Ltac open_world' w :=
  destruct w as [calls [o mo po] [q mq pq] ub str st gui stopped fr cons deps handled subs ns ncb lts].

Ltac open_input' inp :=
  destruct inp as [esc close click bw ew slider t0 t ou qu].

(** The world [update] leaves behind, field by field. *)
Lemma update_exec (inp : frame_input) (w : world) :
  let orbit' :=
    if is_enabled (mQuakeCam w) then set_matrix (matrix (mQuakeCam w)) (mOrbitCam w)
    else mOrbitCam w in
  let quake' :=
    if is_enabled orbit' then set_matrix (matrix orbit') (mQuakeCam w) else mQuakeCam w in
  exec (update inp) w
  = mk_world (mDrawCalls w) orbit' quake' (mUniformsBuffer w)
      (mNormalMappingStrength w) (startTime w) (gui_callback_installed w)
      (if (negb (is_enabled (mQuakeCam w)) && in_escape_pressed inp)
          || in_should_be_closed inp
       then true else composition_stopped w)
      (wnd_current_frame w) (wnd_image_available_consumed w)
      (wnd_present_dependencies w) (wnd_lifetime_handled w) (queue_submissions w)
      (next_semaphore w) (next_command_buffer w) (helpers_lights w).
Proof.
  open_world' w. open_input' inp.
  destruct o, q, esc, close; reflexivity.
Qed.

(** The GUI callback changes the cameras and the normal mapping strength
    only. *)
Lemma gui_callback_exec (inp : frame_input) (w : world) :
  exists orbit' quake' strength',
    exec (gui_callback inp) w
    = mk_world (mDrawCalls w) orbit' quake' (mUniformsBuffer w)
        strength' (startTime w) (gui_callback_installed w)
        (composition_stopped w) (wnd_current_frame w) (wnd_image_available_consumed w)
        (wnd_present_dependencies w) (wnd_lifetime_handled w) (queue_submissions w)
        (next_semaphore w) (next_command_buffer w) (helpers_lights w).
Proof.
  open_world' w. open_input' inp.
  destruct o, q, esc, click, bw, ew, slider; cbv; eexists; eexists; eexists; reflexivity.
Qed.

(** The cameras' own update changes the cameras only. *)
Lemma cameras_update_exec (inp : frame_input) (w : world) :
  exec (cameras_update inp) w
  = mk_world (mDrawCalls w)
      (camera_update (in_orbit_cam_update inp) (mOrbitCam w))
      (camera_update (in_quake_cam_update inp) (mQuakeCam w))
      (mUniformsBuffer w)
      (mNormalMappingStrength w) (startTime w) (gui_callback_installed w)
      (composition_stopped w) (wnd_current_frame w) (wnd_image_available_consumed w)
      (wnd_present_dependencies w) (wnd_lifetime_handled w) (queue_submissions w)
      (next_semaphore w) (next_command_buffer w) (helpers_lights w).
Proof.
  open_world' w. reflexivity.
Qed.

(** The world a frame leaves behind: new cameras, settings and stop flag,
    the buffers and submissions of [render], the animated lights, and the
    window at the next frame. *)
Lemma frame_exec_fields (inp : frame_input) (w : world) :
  exists orbit' quake' strength' stopped' uni lightsData,
    exec (frame inp) w
    = mk_world (mDrawCalls w) orbit' quake' (Some uni) strength'
        (Some (match startTime w with Some t => t | None => in_time_at_static_init inp end))
        (gui_callback_installed w) stopped'
        (S (wnd_current_frame w)) false [] (wnd_lifetime_handled w ++ [next_command_buffer w])
        ((queue_submissions w
          ++ [mk_submission [cmd_fill_lights_buffer lightsData] None []
                [(created_semaphore (next_semaphore w), stage_copy)]])
         ++ [mk_submission (draw_commands (wnd_current_frame w) (mDrawCalls w))
               (Some (next_command_buffer w))
               [(image_available_semaphore (wnd_current_frame w), stage_early_fragment_tests)]
               []])
        (S (next_semaphore w)) (S (next_command_buffer w))
        (animate_lights (helpers_lights w)
           (fsub (in_time inp)
              match startTime w with Some t => t | None => in_time_at_static_init inp end)).
Proof.
  rewrite frame_exec. cbv zeta.
  rewrite (render_exec inp (exec (cameras_update inp) (exec (update inp) w))).
  rewrite (cameras_update_exec inp (exec (update inp) w)).
  rewrite (update_exec inp w).
  cbn [mDrawCalls mOrbitCam mQuakeCam mUniformsBuffer mNormalMappingStrength startTime
       gui_callback_installed composition_stopped wnd_current_frame
       wnd_image_available_consumed wnd_present_dependencies wnd_lifetime_handled
       queue_submissions next_semaphore next_command_buffer helpers_lights].
  destruct (gui_callback_installed w); cbn [when].
  - match goal with
    | |- context [exec (gui_callback inp) ?w2] =>
        destruct (gui_callback_exec inp w2) as (o' & q' & s' & ->)
    end.
    cbn. repeat eexists.
  - cbn. repeat eexists.
Qed.

(** A property every event preserves holds after any run of events. *)
Lemma run_events_preserves (P : world -> Prop) :
  (forall w ev, P w -> P (apply_event w ev)) ->
  forall evs w, P w -> P (run_events w evs).
Proof.
  intros Hstep evs. induction evs as [|ev evs IH]; intros w Hw; [exact Hw|].
  simpl. apply IH, Hstep, Hw.
Qed.

(** *** [update] *)

(** X4. Running [update] a second time on the same input changes nothing:
    the cameras are already in line and the stop request is already
    recorded. *)
Theorem update_idempotent (inp : frame_input) (w : world) :
  exec (update inp) (exec (update inp) w) = exec (update inp) w.
Proof.
  open_world' w. open_input' inp.
  destruct o, q, esc, close, stopped; reflexivity.
Qed.

(** X5. [update] writes no buffer, submits nothing and leaves the window, the
    settings, the enabled flags and the projections of the cameras alone: it
    only copies a camera matrix and may set the stop flag, which it never
    clears. *)
Theorem update_only_syncs_and_stops (inp : frame_input) (w : world) :
  let w' := exec (update inp) w in
  mUniformsBuffer w' = mUniformsBuffer w
  /\ queue_submissions w' = queue_submissions w
  /\ next_semaphore w' = next_semaphore w
  /\ next_command_buffer w' = next_command_buffer w
  /\ wnd_present_dependencies w' = wnd_present_dependencies w
  /\ wnd_image_available_consumed w' = wnd_image_available_consumed w
  /\ wnd_lifetime_handled w' = wnd_lifetime_handled w
  /\ wnd_current_frame w' = wnd_current_frame w
  /\ mNormalMappingStrength w' = mNormalMappingStrength w
  /\ startTime w' = startTime w
  /\ is_enabled (mOrbitCam w') = is_enabled (mOrbitCam w)
  /\ is_enabled (mQuakeCam w') = is_enabled (mQuakeCam w)
  /\ cam_perspective (mOrbitCam w') = cam_perspective (mOrbitCam w)
  /\ cam_perspective (mQuakeCam w') = cam_perspective (mQuakeCam w)
  /\ composition_stopped w'
     = composition_stopped w
       || ((negb (is_enabled (mQuakeCam w)) && in_escape_pressed inp)
           || in_should_be_closed inp).
Proof.
  intros w'. unfold w'. rewrite update_exec.
  open_world' w. open_input' inp.
  destruct o, q, esc, close, stopped; cbn; repeat split.
Qed.

(** *** The commands [render] records *)

Lemma recorded_draw_calls_of_pairs (calls : list data_for_draw_call) (tail : list command) :
  (forall m i rest, tail <> cmd_push_constants m i :: rest) ->
  recorded_draw_calls
    (flat_map (fun drawCall =>
       [cmd_push_constants (mModelMatrix drawCall) (mMaterialIndex drawCall);
        cmd_draw_indexed (mIndexBuffer drawCall) (mPositionsBuffer drawCall)
          (mTexCoordsBuffer drawCall) (mNormalsBuffer drawCall)]) calls ++ tail)
  = calls ++ recorded_draw_calls tail.
Proof.
  intros Htail. induction calls as [|c calls IH]; [reflexivity|].
  destruct c as [m i ib pb tb nb]. cbn [flat_map app recorded_draw_calls
    mModelMatrix mMaterialIndex mIndexBuffer mPositionsBuffer mTexCoordsBuffer mNormalsBuffer].
  rewrite IH. reflexivity.
Qed.

(** X6. Reading the commands of the draw submission back gives exactly the
    draw calls of the scene, in order: [render] records one pair of push
    constants and indexed draw per draw call, with that draw call's model
    matrix, material index and buffers. *)
Theorem render_records_every_draw_call (inp : frame_input) (w : world) :
  exists transfer draw,
    submitted_by (render inp) w = [transfer; draw]
    /\ recorded_draw_calls (sub_commands draw) = mDrawCalls w
    /\ recorded_draw_calls (sub_commands transfer) = [].
Proof.
  eexists. eexists. split; [apply render_submissions|].
  split; [|reflexivity].
  cbn [sub_commands]. unfold draw_commands. cbn [app recorded_draw_calls].
  rewrite recorded_draw_calls_of_pairs by (intros m i rest; discriminate).
  cbn. apply app_nil_r.
Qed.

Lemma count_commands_app (p : command -> bool) (cs cs' : list command) :
  count_commands p (cs ++ cs') = count_commands p cs + count_commands p cs'.
Proof.
  unfold count_commands. rewrite filter_app, length_app. reflexivity.
Qed.

Lemma count_commands_pairs (p : command -> bool) (calls : list data_for_draw_call) :
  (forall m i, p (cmd_push_constants m i) = false) ->
  (forall a b c d, p (cmd_draw_indexed a b c d) = false) ->
  count_commands p
    (flat_map (fun drawCall =>
       [cmd_push_constants (mModelMatrix drawCall) (mMaterialIndex drawCall);
        cmd_draw_indexed (mIndexBuffer drawCall) (mPositionsBuffer drawCall)
          (mTexCoordsBuffer drawCall) (mNormalsBuffer drawCall)]) calls) = 0.
Proof.
  intros Hpush Hdraw. unfold count_commands.
  induction calls as [|c calls IH]; [reflexivity|].
  cbn [flat_map app filter]. rewrite Hpush, Hdraw. exact IH.
Qed.

(** X7. Whatever the scene, also an empty one, the draw submission is one
    render pass: it starts with the begin of the render pass for the current
    frame's backbuffer, binds pipeline and descriptors once, ends with the
    end of the render pass, and holds two commands per draw call between
    them. *)
Theorem render_records_one_render_pass (inp : frame_input) (w : world) :
  exists transfer draw,
    submitted_by (render inp) w = [transfer; draw]
    /\ length (sub_commands draw) = 2 * length (mDrawCalls w) + 4
    /\ firstn 3 (sub_commands draw)
       = [cmd_begin_render_pass (wnd_current_frame w); cmd_bind_pipeline;
          cmd_bind_descriptors render_descriptor_bindings]
    /\ skipn (2 * length (mDrawCalls w) + 3) (sub_commands draw) = [cmd_end_render_pass]
    /\ count_commands is_begin_render_pass (sub_commands draw) = 1
    /\ count_commands is_end_render_pass (sub_commands draw) = 1
    /\ count_commands is_state_binding (sub_commands draw) = 2.
Proof.
  eexists. eexists. split; [apply render_submissions|].
  cbn [sub_commands]. unfold draw_commands.
  set (pairs := flat_map _ (mDrawCalls w)).
  assert (Hlen : length pairs = 2 * length (mDrawCalls w)).
  { unfold pairs. induction (mDrawCalls w) as [|c calls IH]; [reflexivity|].
    cbn [flat_map app length]. rewrite IH. lia. }
  split; [cbn [app length]; rewrite length_app, Hlen; cbn; lia|].
  split; [reflexivity|].
  split.
  { replace (2 * length (mDrawCalls w) + 3) with (3 + length pairs) by lia.
    rewrite skipn_add. cbn [app skipn]. apply skipn_length_app. }
  change ([cmd_begin_render_pass (wnd_current_frame w); cmd_bind_pipeline;
           cmd_bind_descriptors render_descriptor_bindings] ++ pairs ++ [cmd_end_render_pass])
    with ([cmd_begin_render_pass (wnd_current_frame w); cmd_bind_pipeline;
           cmd_bind_descriptors render_descriptor_bindings] ++ (pairs ++ [cmd_end_render_pass])).
  rewrite !count_commands_app. unfold pairs.
  rewrite !count_commands_pairs by reflexivity.
  repeat split.
Qed.

(** X8. [render] reads the quake camera once: the lights it transfers were
    converted with the very view matrix it wrote into the uniform buffer, and
    the ranges and the array of the block come from one and the same list of
    active lights. *)
Theorem render_lights_match_uniforms (inp : frame_input) (w : world) :
  exists uni activeLights,
    mUniformsBuffer (exec (render inp) w) = Some uni
    /\ lights_buffer_contents (exec (render inp) w)
       = Some (make_lightsource_data activeLights (mViewMatrix uni))
    /\ activeLights
       = get_active_lightsources
           (animate_lights (helpers_lights w)
              (fsub (in_time inp)
                 match startTime w with
                 | Some t => t
                 | None => in_time_at_static_init inp
                 end)).
Proof.
  eexists. eexists. rewrite render_lights_buffer_contents, render_exec.
  cbn [mUniformsBuffer]. split; [reflexivity|]. split; reflexivity.
Qed.

(** *** The submissions of the host code over the frames *)

Lemma nth_error_at_length {A : Type} (l : list A) (x : A) (tail : list A) :
  nth_error (l ++ x :: tail) (length l) = Some x.
Proof.
  induction l as [|a l IH]; [reflexivity|exact IH].
Qed.

Lemma frame_keeps_own_submissions_in_frame_order (inp : frame_input) (w : world) :
  own_submissions_in_frame_order w -> own_submissions_in_frame_order (exec (frame inp) w).
Proof.
  intros (Hsem & Hcb & Hhandled & Hdeps & Hcons & rest & Hqueue & Hlen & Hsubs).
  destruct (frame_exec_fields inp w) as (o' & q' & s' & st' & uni & ld & ->).
  unfold own_submissions_in_frame_order.
  cbn [next_semaphore next_command_buffer wnd_lifetime_handled wnd_present_dependencies
       wnd_image_available_consumed queue_submissions wnd_current_frame].
  rewrite Hsem, Hcb, Hhandled, Hqueue.
  split; [reflexivity|]. split; [reflexivity|].
  split; [rewrite seq_S; reflexivity|].
  split; [reflexivity|]. split; [reflexivity|].
  eexists. split; [cbn [app]; reflexivity|].
  split; [rewrite !length_app, Hlen; cbn; lia|].
  intros k Hk. rewrite <- app_assoc. cbn [app].
  destruct (Nat.eq_dec k (wnd_current_frame w)) as [->|Hne].
  - eexists. eexists.
    split; [rewrite <- Hlen; apply nth_error_at_length|].
    split.
    { replace (2 * wnd_current_frame w + 1) with (S (length rest)) by lia.
      change (?l ++ ?x :: ?y :: ?t) with (l ++ [x] ++ y :: t).
      rewrite app_assoc.
      replace (S (length rest))
        with (length (rest ++ [mk_submission [cmd_fill_lights_buffer ld] None []
                        [(created_semaphore (wnd_current_frame w), stage_copy)]]))
        by (rewrite length_app; cbn; lia).
      apply nth_error_at_length. }
    repeat split.
  - destruct (Hsubs k ltac:(lia)) as (t & d & Ht & Hd & Hrest).
    exists t, d.
    split; [rewrite nth_error_app1 by lia; exact Ht|].
    split; [rewrite nth_error_app1 by lia; exact Hd|].
    exact Hrest.
Qed.

Lemma apply_event_keeps_own_submissions_in_frame_order (w : world) (ev : event) :
  own_submissions_in_frame_order w -> own_submissions_in_frame_order (apply_event w ev).
Proof.
  intros Hw. unfold apply_event.
  destruct (composition_stopped w); [exact Hw|].
  destruct ev as [inp|aspect|m1 m2|ls].
  - apply frame_keeps_own_submissions_in_frame_order, Hw.
  - open_world' w. exact Hw.
  - open_world' w. exact Hw.
  - open_world' w. exact Hw.
Qed.

(** X9. In every world the render loop reaches, the submissions the host code
    itself has made to the queue are the layout transitions of
    [init_pipelines], which wait for no semaphore and signal none, followed
    by exactly two submissions per frame rendered, in frame order: the
    transfer of frame [k] waits for nothing and signals semaphore [k], the
    draw submission of frame [k] waits for the image-available semaphore of
    frame [k] only, signals nothing and uses command buffer [k]; between
    frames none of the present dependencies [render] adds is pending and the
    window handles the lifetime of the command buffers of all frames so
    far. *)
Theorem own_submissions_one_initial_two_per_frame
    (aDrawCalls : list data_for_draw_call) (aLights : list lightsource)
    (aspect_ratio : float) (evs : list event) :
  let w := world_after aDrawCalls aLights aspect_ratio evs in
  exists of_frames,
    queue_submissions w = mk_submission [cmd_layout_transitions] None [] [] :: of_frames
    /\ length of_frames = 2 * wnd_current_frame w
    /\ wnd_lifetime_handled w = seq 0 (wnd_current_frame w)
    /\ wnd_present_dependencies w = []
    /\ (forall k, k < wnd_current_frame w ->
        exists transfer draw,
          nth_error of_frames (2 * k) = Some transfer
          /\ nth_error of_frames (2 * k + 1) = Some draw
          /\ sub_waits transfer = []
          /\ sub_signals transfer = [(created_semaphore k, stage_copy)]
          /\ sub_waits draw = [(image_available_semaphore k, stage_early_fragment_tests)]
          /\ sub_signals draw = []
          /\ sub_command_buffer draw = Some k).
Proof.
  intros w.
  assert (Hw : own_submissions_in_frame_order w).
  { unfold w, world_after.
    apply (run_events_preserves own_submissions_in_frame_order
             apply_event_keeps_own_submissions_in_frame_order).
    unfold own_submissions_in_frame_order. cbn.
    repeat (split; [reflexivity|]).
    exists []. split; [reflexivity|]. split; [reflexivity|]. intros k Hk. lia. }
  destruct Hw as (_ & _ & Hhandled & Hdeps & _ & rest & Hqueue & Hlen & Hsubs).
  exists rest. repeat split; assumption.
Qed.

(** *** The static start time *)

Lemma apply_event_keeps_start_time (t : float) (w : world) (ev : event) :
  startTime w = Some t -> startTime (apply_event w ev) = Some t.
Proof.
  intros Hw. unfold apply_event.
  destruct (composition_stopped w); [exact Hw|].
  destruct ev as [inp|aspect|m1 m2|ls].
  - destruct (frame_exec_fields inp w) as (o' & q' & s' & st' & uni & ld & ->).
    cbn [startTime]. rewrite Hw. reflexivity.
  - open_world' w. exact Hw.
  - open_world' w. exact Hw.
  - open_world' w. exact Hw.
Qed.

(** X10. The first frame of a running loop initialises the static start time
    of [render] with its own time reading, and nothing that happens later
    changes it: every later frame measures the elapsed time from the first
    one. *)
Theorem start_time_is_first_frame_time
    (w : world) (inp : frame_input) (evs : list event)
    (Hrunning : composition_stopped w = false)
    (Hunset : startTime w = None) :
  startTime (run_events w (ev_frame inp :: evs)) = Some (in_time_at_static_init inp).
Proof.
  cbn [run_events fold_left].
  apply (run_events_preserves
           (fun w' => startTime w' = Some (in_time_at_static_init inp))
           (@apply_event_keeps_start_time (in_time_at_static_init inp))).
  unfold apply_event. rewrite Hrunning.
  destruct (frame_exec_fields inp w) as (o' & q' & s' & st' & uni & ld & ->).
  cbn [startTime]. rewrite Hunset. reflexivity.
Qed.

(** *** The projection of the cameras *)

Lemma apply_event_keeps_perspective (w : world) (ev : event) :
  (exists a, cam_perspective (mOrbitCam w) = Some (initial_perspective a)
             /\ cam_perspective (mQuakeCam w) = Some (initial_perspective a)) ->
  exists a, cam_perspective (mOrbitCam (apply_event w ev)) = Some (initial_perspective a)
            /\ cam_perspective (mQuakeCam (apply_event w ev)) = Some (initial_perspective a).
Proof.
  intros (a & Ho & Hq). unfold apply_event.
  destruct (composition_stopped w); [exists a; split; assumption|].
  destruct ev as [inp|aspect|m1 m2|ls].
  - exists a.
    pose proof (update_cameras inp w) as (_ & _ & Upo & Upq & _).
    pose proof (cameras_update_cameras inp (exec (update inp) w))
      as (_ & _ & Cpo & Cpq & _).
    pose proof (render_keeps inp (exec (cameras_update inp) (exec (update inp) w)))
      as (Ro & Rq & _).
    rewrite frame_exec. cbv zeta. cbn [exec render_frame modify snd].
    set (w2 := exec (render inp) (exec (cameras_update inp) (exec (update inp) w))).
    assert (H2 : cam_perspective (mOrbitCam w2) = Some (initial_perspective a)
                 /\ cam_perspective (mQuakeCam w2) = Some (initial_perspective a)).
    { unfold w2. rewrite Ro, Rq, Cpo, Cpq, Upo, Upq. split; assumption. }
    destruct (gui_callback_installed w2); cbn [when].
    + pose proof (gui_callback_cameras inp w2) as (_ & _ & _ & _ & Gpo & Gpq & _).
      destruct H2 as [H2o H2q]. rewrite <- Gpo in H2o. rewrite <- Gpq in H2q.
      destruct (exec (gui_callback inp) w2); split; assumption.
    + destruct w2; exact H2.
  - exists aspect. open_world' w. cbn in *. rewrite Ho, Hq. split; reflexivity.
  - exists a. open_world' w. cbn in *. destruct o, q; split; assumption.
  - exists a. open_world' w. split; assumption.
Qed.

(** X11. In every world the render loop reaches, a change of the swap chain
    gives both cameras the perspective projection with the field of view, the
    near plane and the far plane set by [initialize] and the new aspect
    ratio, and leaves their enabled flags and matrices as they were. *)
Theorem swapchain_change_updates_both_projections
    (aDrawCalls : list data_for_draw_call) (aLights : list lightsource)
    (aspect_ratio : float) (evs : list event)
    (new_aspect_ratio : float) :
  let w := world_after aDrawCalls aLights aspect_ratio evs in
  let w' := exec (on_swapchain_changed new_aspect_ratio) w in
  projection_matrix (mOrbitCam w')
  = perspective (glm_radians (float_lit 600 (-1))) new_aspect_ratio
      (float_lit 3 (-1)) (float_lit 10000 (-1))
  /\ projection_matrix (mQuakeCam w') = projection_matrix (mOrbitCam w')
  /\ is_enabled (mOrbitCam w') = is_enabled (mOrbitCam w)
  /\ is_enabled (mQuakeCam w') = is_enabled (mQuakeCam w)
  /\ matrix (mOrbitCam w') = matrix (mOrbitCam w)
  /\ matrix (mQuakeCam w') = matrix (mQuakeCam w).
Proof.
  intros w w'.
  assert (Hp : exists a, cam_perspective (mOrbitCam w) = Some (initial_perspective a)
                         /\ cam_perspective (mQuakeCam w) = Some (initial_perspective a)).
  { unfold w, world_after.
    apply (run_events_preserves _ apply_event_keeps_perspective).
    exists aspect_ratio. split; reflexivity. }
  destruct Hp as (a & Ho & Hq). unfold w'. clearbody w. clear w'.
  open_world' w. cbn in *. rewrite Ho, Hq. cbn. repeat split.
Qed.

(** *** The GUI callback *)

Lemma gui_callback_strength (inp : frame_input) (w : world) :
  mNormalMappingStrength (exec (gui_callback inp) w)
  = match in_normal_mapping_slider inp with
    | Some f => f
    | None => mNormalMappingStrength w
    end.
Proof.
  open_world' w. open_input' inp.
  destruct o, q, esc, click, bw, ew, slider; reflexivity.
Qed.

(** X12. The strength the slider of the GUI callback stores is what the next
    [render] writes into the user input of the uniform buffer (the old
    strength when the slider was not moved); the camera data of the uniform
    buffer are not affected by the GUI pass. *)
Theorem slider_value_reaches_uniforms (inp inp' : frame_input) (w : world) :
  exists uni,
    mUniformsBuffer (exec (render inp') (exec (gui_callback inp) w)) = Some uni
    /\ mUserInput uni
       = glm_vec4_splat
           match in_normal_mapping_slider inp with
           | Some f => f
           | None => mNormalMappingStrength w
           end
    /\ mViewMatrix uni = view_matrix (mQuakeCam w)
    /\ mProjMatrix uni = projection_matrix (mQuakeCam w)
    /\ mCamPos uni = glm_translate (translation (mQuakeCam w)).
Proof.
  eexists. rewrite render_exec. cbn [mUniformsBuffer]. split; [reflexivity|].
  pose proof (gui_callback_cameras inp w) as (_ & _ & _ & Hm & _ & Hp & _).
  unfold uniforms_of. cbn [mUserInput mViewMatrix mProjMatrix mCamPos].
  unfold view_matrix, translation, projection_matrix.
  rewrite gui_callback_strength, Hm, Hp. repeat split.
Qed.

(** X13. While the quake camera is enabled, a pass of the GUI callback
    disables it in one case only: escape is pressed and the check box is not
    clicked in that pass.  Clicking the box (unchecking it) never leaves the
    quake camera. *)
Theorem quake_camera_left_only_by_escape (inp : frame_input) (w : world)
    (Hquake : is_enabled (mQuakeCam w) = true) :
  is_enabled (mQuakeCam (exec (gui_callback inp) w))
  = negb (in_escape_pressed inp && negb (in_quake_checkbox_clicked inp)).
Proof.
  pose proof (gui_callback_cameras inp w) as (Gq & _).
  rewrite Gq, Hquake.
  destruct (in_quake_checkbox_clicked inp), (in_escape_pressed inp); reflexivity.
Qed.

(** X14. While the quake camera is disabled, clicking the check box in a pass
    without escape switches to the quake camera: afterwards the quake camera
    is enabled and the orbit camera disabled, whatever the GUI reports about
    the mouse. *)
Theorem checkbox_click_enters_quake_camera (inp : frame_input) (w : world)
    (Hquake : is_enabled (mQuakeCam w) = false)
    (Hclick : in_quake_checkbox_clicked inp = true)
    (Hescape : in_escape_pressed inp = false) :
  is_enabled (mQuakeCam (exec (gui_callback inp) w)) = true
  /\ is_enabled (mOrbitCam (exec (gui_callback inp) w)) = false.
Proof.
  pose proof (gui_callback_cameras inp w) as (Gq & Go & _).
  rewrite Gq, Go, Hquake, Hclick, Hescape.
  destruct (in_begin_wanting_to_occupy_mouse inp), (in_end_wanting_to_occupy_mouse inp);
    split; reflexivity.
Qed.

(** X15. With exactly one camera enabled, a GUI pass followed by a pass in
    which the GUI stops occupying the mouse (no click on the box and no
    escape in either) ends with the cameras enabled as before the first
    pass: the orbit camera switched off for the GUI is switched on again,
    and the quake camera is never touched. *)
Theorem cameras_restored_when_gui_releases_mouse (inp1 inp2 : frame_input) (w : world)
    (Hone : xorb (is_enabled (mOrbitCam w)) (is_enabled (mQuakeCam w)) = true)
    (Hclick1 : in_quake_checkbox_clicked inp1 = false)
    (Hescape1 : in_escape_pressed inp1 = false)
    (Hclick2 : in_quake_checkbox_clicked inp2 = false)
    (Hescape2 : in_escape_pressed inp2 = false)
    (Hend : in_end_wanting_to_occupy_mouse inp2 = true) :
  let w' := exec (gui_callback inp2) (exec (gui_callback inp1) w) in
  is_enabled (mOrbitCam w') = is_enabled (mOrbitCam w)
  /\ is_enabled (mQuakeCam w') = is_enabled (mQuakeCam w).
Proof.
  intros w'.
  pose proof (gui_callback_cameras inp1 w) as (Gq1 & Go1 & _).
  pose proof (gui_callback_cameras inp2 (exec (gui_callback inp1) w)) as (Gq2 & Go2 & _).
  fold w' in Gq2, Go2.
  rewrite Gq2, Go2, Gq1, Go1, Hclick1, Hescape1, Hclick2, Hescape2, Hend.
  destruct (is_enabled (mOrbitCam w)), (is_enabled (mQuakeCam w)); try discriminate;
    destruct (in_begin_wanting_to_occupy_mouse inp1), (in_end_wanting_to_occupy_mouse inp1),
      (in_begin_wanting_to_occupy_mouse inp2); split; reflexivity.
Qed.

(** X17. From the quake camera, escape pressed in two frames in a row ends
    the render loop: the GUI pass of the first frame (box not clicked) hands
    over to the orbit camera, and the [update] of the next frame, finding the
    quake camera disabled, stops the composition. *)
Theorem escape_twice_stops_from_quake_camera (inp1 inp2 : frame_input) (w : world)
    (Hgui : gui_callback_installed w = true)
    (Hquake : is_enabled (mQuakeCam w) = true)
    (Hclick1 : in_quake_checkbox_clicked inp1 = false)
    (Hescape1 : in_escape_pressed inp1 = true)
    (Hescape2 : in_escape_pressed inp2 = true) :
  is_enabled (mQuakeCam (exec (frame inp1) w)) = false
  /\ composition_stopped (exec (update inp2) (exec (frame inp1) w)) = true.
Proof.
  destruct (frame_flags inp1 w) as (w2 & _ & Hq2 & _ & Fq & _).
  rewrite Hgui in Fq. cbn [when] in Fq.
  pose proof (gui_callback_cameras inp1 w2) as (Gq & _).
  assert (Hoff : is_enabled (mQuakeCam (exec (frame inp1) w)) = false).
  { rewrite Fq, Gq, Hq2, Hquake, Hclick1, Hescape1. reflexivity. }
  split; [exact Hoff|].
  rewrite update_stopped, Hoff, Hescape2. cbn.
  destruct (composition_stopped (exec (frame inp1) w)); reflexivity.
Qed.

End CallbackProperties.

(** ** Exceptions [main] does not catch *)

Section UncaughtExceptions.

Variable throws : main_step -> option exception.

(** X16. When the first statement of the [try] block that throws raises an
    exception that is neither a logic error nor a runtime error of the
    framework, no handler of [main] matches: the exception leaves [main],
    which returns no exit code, after the statements up to the throwing one
    have run. *)
Theorem main_lets_other_exceptions_escape
    (before after : list main_step) (s : main_step)
    (Hsplit : try_block_steps = before ++ s :: after)
    (Hbefore : forall x, In x before -> throws x = None)
    (Hthrows : throws s = Some other_exception) :
  main throws = (uncaught other_exception, before ++ [s])
  /\ forall code, fst (main throws) <> returns code.
Proof.
  assert (Hmain : main throws = (uncaught other_exception, before ++ [s])).
  { unfold main.
    rewrite Hsplit,
      (@run_steps_throw throws before after s other_exception
         (mk_main_state EXIT_FAILURE []) Hbefore Hthrows).
    reflexivity. }
  split; [exact Hmain|].
  intros code. rewrite Hmain. discriminate.
Qed.

End UncaughtExceptions.

(** ** Concrete runs *)



Lemma scenario_A_range_block_witness :
  count_of_type ambient scenario_A_lights = 2
  /\ count_of_type directional scenario_A_lights = 1
  /\ count_of_type point scenario_A_lights = 0
  /\ count_of_type spot scenario_A_lights = 0
  /\ cfg_number_of_concurrent_frames main_window_config = 3
  /\ let d := make_lightsource_data (H := example_helpers) scenario_A_lights [] in
     range_of d ambient = (0, 2)%Z
     /\ range_of d directional = (2, 3)%Z
     /\ range_of d point = (3, 3)%Z
     /\ range_of d spot = (3, 3)%Z.
Proof.
  do 4 (split; [reflexivity|]).
  exact (@scenario_A_range_block example_externals example_helpers
           scenario_A_lights [] eq_refl eq_refl eq_refl eq_refl).
Defined.

(** The first frame of the example: [render] submits the transfer and the
    draw submission, the one present dependency of the frame is the
    semaphore of the transfer, and the completion of the draw submission is
    not a present dependency. *)
Lemma first_frame_draw_completion_not_a_present_dependency :
  let w := exec (render (H := example_helpers) idle_input) example_initial_world in
  let submitted := submitted_by (render (H := example_helpers) idle_input)
                     example_initial_world in
  map is_draw_submission submitted = [false; true]
  /\ wnd_present_dependencies w = [created_semaphore 0]
  /\ map (fun sub => completion_is_present_dependency sub w) submitted = [true; false].
Proof.
  cbv zeta. split; [|split]; vm_compute; reflexivity.
Qed.

(** Hovering the GUI in the first frame leaves both cameras disabled. *)
Lemma hovering_gui_disables_both_cameras :
  let w := world_after (H := example_helpers) [] scenario_A_lights 1778%Z [ev_frame hover_gui_input] in
  is_enabled (mOrbitCam w) = false /\ is_enabled (mQuakeCam w) = false.
Proof.
  split; vm_compute; reflexivity.
Qed.

(** With the quake camera enabled, a frame in which escape is pressed while
    the check box is clicked leaves the quake camera enabled, the orbit
    camera disabled and the loop running; and a frame in which escape is
    pressed while the GUI begins to occupy the mouse leaves the orbit camera
    disabled as well. *)
Lemma escape_with_checkbox_click_keeps_quake_camera :
  let w := world_after (H := example_helpers) [] scenario_A_lights 1778%Z
             [ev_frame click_quake_checkbox_input] in
  let w' := exec (frame (H := example_helpers) escape_and_click_input) w in
  let w'' := exec (frame (H := example_helpers) escape_and_hover_input) w in
  is_enabled (mQuakeCam w) = true
  /\ (is_enabled (mQuakeCam w') = true
      /\ is_enabled (mOrbitCam w') = false
      /\ composition_stopped w' = false)
  /\ (is_enabled (mQuakeCam w'') = false
      /\ is_enabled (mOrbitCam w'') = false
      /\ composition_stopped w'' = false).
Proof.
  repeat split; vm_compute; reflexivity.
Qed.

Lemma cameras_never_both_enabled_witness :
  let evs := [ev_frame hover_gui_input; ev_frame leave_gui_input;
              ev_frame click_quake_checkbox_input] in
  let w := world_after (H := example_helpers) [] scenario_A_lights 1778%Z evs in
  gui_occupies_mouse (H := example_helpers) [] scenario_A_lights 1778%Z evs = false
  /\ is_enabled (mOrbitCam w) && is_enabled (mQuakeCam w) = false
  /\ xorb (is_enabled (mOrbitCam w)) (is_enabled (mQuakeCam w)) = true.
Proof.
  cbv zeta.
  assert (Hfree : gui_occupies_mouse (H := example_helpers) [] scenario_A_lights 1778%Z
                    [ev_frame hover_gui_input; ev_frame leave_gui_input;
                     ev_frame click_quake_checkbox_input] = false)
    by (vm_compute; reflexivity).
  destruct (@cameras_never_both_enabled example_externals example_helpers
              [] scenario_A_lights 1778%Z
              [ev_frame hover_gui_input; ev_frame leave_gui_input;
               ev_frame click_quake_checkbox_input]) as (Hnb & Hone & _).
  split; [exact Hfree|]. split; [exact Hnb|]. exact (Hone Hfree).
Defined.

Lemma render_draw_waits_for_image_available_witness :
  exists transfer draw,
    submitted_by (render (H := example_helpers) idle_input) example_initial_world
    = [transfer; draw]
    /\ stage_waits_for draw stage_color_attachment_output (image_available_semaphore 0) = true.
Proof.
  destruct (@render_draw_waits_for_image_available example_externals example_helpers
              idle_input example_initial_world)
    as (transfer & draw & Hsub & _ & _ & _ & _ & _ & Hwait).
  exists transfer, draw. split; [exact Hsub|].
  apply Hwait. right. right. left. reflexivity.
Defined.

Lemma main_exit_code_witness :
  main open_fails
  = (returns EXIT_FAILURE,
     [ step_create_window; step_set_resolution;
       step_set_additional_back_buffer_attachments; step_enable_resizing;
       step_request_srgb_framebuffer; step_set_presentaton_mode;
       step_set_number_of_concurrent_frames; step_set_number_of_presentable_images;
       step_open ]).
Proof.
  destruct (main_exit_code open_fails) as (_ & _ & Hfail & _).
  apply (Hfail
           [ step_create_window; step_set_resolution;
             step_set_additional_back_buffer_attachments; step_enable_resizing;
             step_request_srgb_framebuffer; step_set_presentaton_mode;
             step_set_number_of_concurrent_frames; step_set_number_of_presentable_images ]
           step_open
           [ step_create_queue; step_set_queue_family_ownership;
             step_set_present_queue; step_construct_assignment1;
             step_construct_imgui_manager; step_set_custom_font;
             step_create_lightsource_editor; step_create_camera_presets;
             step_configure_and_compose; step_start_render_loop ]
           avk_runtime_error).
  - reflexivity.
  - intros x Hx. simpl in Hx.
    repeat (destruct Hx as [<-|Hx]; [reflexivity|]). contradiction.
  - reflexivity.
  - right. reflexivity.
Defined.

Lemma escape_key_and_close_flag_witness :
  let w := world_after (H := example_helpers) [] scenario_A_lights 1778%Z
             [ev_frame click_quake_checkbox_input] in
  let w' := exec (gui_callback escape_input)
              (exec (render (H := example_helpers) escape_input)
                 (exec (update escape_input) w)) in
  is_enabled (mQuakeCam w') = false
  /\ is_enabled (mOrbitCam w') = true
  /\ composition_stopped w' = false.
Proof.
  cbv zeta.
  destruct (@escape_key_and_close_flag example_externals example_helpers escape_input
              (world_after (H := example_helpers) [] scenario_A_lights 1778%Z
                 [ev_frame click_quake_checkbox_input])) as (_ & Hquake & _).
  destruct (Hquake eq_refl eq_refl eq_refl) as (Hq & Ho & Hrun).
  split; [exact Hq|]. split; [exact Ho|].
  apply Hrun; reflexivity.
Defined.





(** *** Runs for the further properties *)

Lemma start_time_is_first_frame_time_witness :
  composition_stopped example_initial_world = false
  /\ startTime example_initial_world = None
  /\ startTime (run_events (H := example_helpers) example_initial_world
                  [ev_frame idle_input; ev_frame later_input])
     = Some (in_time_at_static_init idle_input).
Proof.
  split; [reflexivity|]. split; [reflexivity|].
  exact (@start_time_is_first_frame_time example_externals example_helpers
           example_initial_world idle_input [ev_frame later_input] eq_refl eq_refl).
Defined.

Lemma quake_camera_left_only_by_escape_witness :
  let w := world_after (H := example_helpers) [] scenario_A_lights 1778%Z
             [ev_frame click_quake_checkbox_input] in
  is_enabled (mQuakeCam w) = true
  /\ is_enabled (mQuakeCam (exec (gui_callback escape_and_click_input) w)) = true
  /\ is_enabled (mQuakeCam (exec (gui_callback escape_input) w)) = false.
Proof.
  cbv zeta.
  assert (Hquake : is_enabled (mQuakeCam (world_after (H := example_helpers) [] scenario_A_lights 1778%Z
                                            [ev_frame click_quake_checkbox_input])) = true)
    by (vm_compute; reflexivity).
  split; [exact Hquake|]. split.
  - exact (@quake_camera_left_only_by_escape example_externals escape_and_click_input _ Hquake).
  - exact (@quake_camera_left_only_by_escape example_externals escape_input _ Hquake).
Defined.

Lemma checkbox_click_enters_quake_camera_witness :
  is_enabled (mQuakeCam example_initial_world) = false
  /\ is_enabled (mQuakeCam (exec (gui_callback click_quake_checkbox_input)
                              example_initial_world)) = true
  /\ is_enabled (mOrbitCam (exec (gui_callback click_quake_checkbox_input)
                              example_initial_world)) = false.
Proof.
  split; [reflexivity|].
  exact (@checkbox_click_enters_quake_camera example_externals
           click_quake_checkbox_input example_initial_world eq_refl eq_refl eq_refl).
Defined.

Lemma cameras_restored_when_gui_releases_mouse_witness :
  let w1 := exec (gui_callback hover_gui_input) example_initial_world in
  let w2 := exec (gui_callback leave_gui_input) w1 in
  is_enabled (mOrbitCam example_initial_world) = true
  /\ is_enabled (mOrbitCam w1) = false
  /\ is_enabled (mOrbitCam w2) = is_enabled (mOrbitCam example_initial_world)
  /\ is_enabled (mQuakeCam w2) = is_enabled (mQuakeCam example_initial_world).
Proof.
  cbv zeta. split; [reflexivity|]. split; [reflexivity|].
  exact (@cameras_restored_when_gui_releases_mouse example_externals
           hover_gui_input leave_gui_input example_initial_world
           eq_refl eq_refl eq_refl eq_refl eq_refl eq_refl).
Defined.

Lemma main_lets_other_exceptions_escape_witness :
  main font_fails
  = (uncaught other_exception,
     [ step_create_window; step_set_resolution;
       step_set_additional_back_buffer_attachments; step_enable_resizing;
       step_request_srgb_framebuffer; step_set_presentaton_mode;
       step_set_number_of_concurrent_frames; step_set_number_of_presentable_images;
       step_open; step_create_queue; step_set_queue_family_ownership;
       step_set_present_queue; step_construct_assignment1;
       step_construct_imgui_manager; step_set_custom_font ]).
Proof.
  refine (proj1 (@main_lets_other_exceptions_escape font_fails
           [ step_create_window; step_set_resolution;
             step_set_additional_back_buffer_attachments; step_enable_resizing;
             step_request_srgb_framebuffer; step_set_presentaton_mode;
             step_set_number_of_concurrent_frames; step_set_number_of_presentable_images;
             step_open; step_create_queue; step_set_queue_family_ownership;
             step_set_present_queue; step_construct_assignment1;
             step_construct_imgui_manager ]
           [ step_create_lightsource_editor; step_create_camera_presets;
             step_configure_and_compose; step_start_render_loop ]
           step_set_custom_font eq_refl _ eq_refl)).
  intros x Hx. simpl in Hx.
  repeat (destruct Hx as [<-|Hx]; [reflexivity|]). contradiction.
Defined.

Lemma escape_twice_stops_from_quake_camera_witness :
  let w := world_after (H := example_helpers) [] scenario_A_lights 1778%Z
             [ev_frame click_quake_checkbox_input] in
  is_enabled (mQuakeCam w) = true
  /\ is_enabled (mQuakeCam (exec (frame (H := example_helpers) escape_input) w)) = false
  /\ composition_stopped
       (exec (update escape_input) (exec (frame (H := example_helpers) escape_input) w))
     = true.
Proof.
  cbv zeta.
  assert (Hquake : is_enabled (mQuakeCam (world_after (H := example_helpers) [] scenario_A_lights 1778%Z
                                            [ev_frame click_quake_checkbox_input])) = true)
    by (vm_compute; reflexivity).
  assert (Hgui : gui_callback_installed (world_after (H := example_helpers) [] scenario_A_lights 1778%Z
                                           [ev_frame click_quake_checkbox_input]) = true)
    by (vm_compute; reflexivity).
  split; [exact Hquake|].
  exact (@escape_twice_stops_from_quake_camera example_externals example_helpers
           escape_input escape_input _ Hgui Hquake eq_refl eq_refl eq_refl).
Defined.
